(** * astrologyAI: the offline rules engine ([./astrology], used by [App.tsx])

    A shallow embedding of the deterministic helpers (sun-sign lookup,
    numerology, cyclic zodiac, lucky values, seeded daily message, profile
    composer and rule-based question router) together with the properties
    the design document states about them.

    Conventions of the embedding.
    - A JavaScript string is the list of its UTF-16 code units ([JSString]).
    - The numbers the engine computes with are integers far below 2^53, so a
      JavaScript number is a [Z]; [%] is the truncated remainder [Z.rem].
    - A value that may be [undefined] is an [option].
    - [Number(text)] is embedded on plain decimal integer literals only;
      [None] there means that the text is outside that fragment. *)

From Stdlib Require Import ZArith List String Ascii Bool Lia QArith Qround.
From Equations Require Import Equations.
Import ListNotations.

#[local] Open Scope Z_scope.

(** ** JavaScript strings and the built-ins the engine calls *)

Module JS.

Definition JSString := list Z.

(** A literal of the source, for its ASCII part. *)
Definition str (s : string) : JSString :=
  map (fun a => Z.of_nat (nat_of_ascii a)) (list_ascii_of_string s).

Definition isDigit (c : Z) : bool := (48 <=? c) && (c <=? 57).

(** [s.replace(/[^0-9]/g, '')] *)
Definition stripNonDigits (s : JSString) : JSString := filter isDigit s.

(** [digits.split('').map(Number)] on a text made of decimal digits. *)
Definition digitValues (s : JSString) : list Z := map (fun c => c - 48) s.

(** [xs.reduce((a,b) => a+b, 0)] *)
Definition sum (xs : list Z) : Z := fold_left Z.add xs 0.

(** The decimal digits of [n], most significant first, for [0 <= n]. *)
Equations? digitsOf (n : Z) : list Z by wf (Z.to_nat n) lt :=
  digitsOf n with Z_lt_dec n 10 => {
    | left _ := [n];
    | right _ := digitsOf (n / 10) ++ [n mod 10] }.
Proof.
  assert (n / 10 < n) by (apply Z.div_lt; lia).
  assert (0 <= n / 10) by (apply Z.div_pos; lia).
  lia.
Qed.

(** [n.toString()] on an integer. *)
Definition toString (n : Z) : JSString :=
  if n <? 0 then 45 :: map (fun d => d + 48) (digitsOf (- n))
  else map (fun d => d + 48) (digitsOf n).

(** [s.split(sep)] for a one-unit separator. *)
Fixpoint split (sep : Z) (s : JSString) : list JSString :=
  match s with
  | [] => [[]]
  | c :: rest =>
      if c =? sep then [] :: split sep rest
      else match split sep rest with
           | piece :: pieces => (c :: piece) :: pieces
           | [] => [[c]]
           end
  end.

(** The value of a run of decimal digits read left to right. *)
Fixpoint decimalValue (acc : Z) (s : JSString) : option Z :=
  match s with
  | [] => Some acc
  | c :: rest => if isDigit c then decimalValue (10 * acc + (c - 48)) rest
                 else None
  end.

(** [Number(s)] on the fragment: the empty text (0) and an optional sign
    followed by at most 15 decimal digits, which a double holds exactly. *)
Definition Number (s : JSString) : option Z :=
  match s with
  | [] => Some 0
  | c :: rest =>
      if (c =? 45) && negb (List.length rest =? 0)%nat && (List.length rest <=? 15)%nat
      then option_map Z.opp (decimalValue 0 rest)
      else if (c =? 43) && negb (List.length rest =? 0)%nat && (List.length rest <=? 15)%nat
      then decimalValue 0 rest
      else if (List.length s <=? 15)%nat then decimalValue 0 s
      else None
  end.

(** [s.slice(0, n)] *)
Definition slice0 (n : nat) (s : JSString) : JSString := firstn n s.

Fixpoint startsWith (k s : JSString) : bool :=
  match k, s with
  | [], _ => true
  | _ :: _, [] => false
  | a :: k', b :: s' => (a =? b) && startsWith k' s'
  end.

(** [s.includes(k)] *)
Fixpoint includes (s k : JSString) : bool :=
  startsWith k s ||
  match s with
  | [] => false
  | _ :: s' => includes s' k
  end.

(** [===] on strings. *)
Fixpoint eqb (a b : JSString) : bool :=
  match a, b with
  | [], [] => true
  | x :: a', y :: b' => (x =? y) && eqb a' b'
  | _, _ => false
  end.

(** [xs.join(sep)] *)
Fixpoint join (sep : JSString) (xs : list JSString) : JSString :=
  match xs with
  | [] => []
  | [x] => x
  | x :: rest => x ++ sep ++ join sep rest
  end.

(** [xs[i]] for an integer [i]: [undefined] out of range. *)
Definition index {A : Type} (xs : list A) (i : Z) : option A :=
  if i <? 0 then None else nth_error xs (Z.to_nat i).

(** [ToInt32] and [ToUint32] of ECMAScript on an integer. *)
Definition toInt32 (z : Z) : Z := (z + 2 ^ 31) mod 2 ^ 32 - 2 ^ 31.
Definition toUint32 (z : Z) : Z := z mod 2 ^ 32.

(** [a ^ b] *)
Definition xor32 (a b : Z) : Z := Z.lxor (toInt32 a) (toInt32 b).

(** [Math.imul(a, b)] *)
Definition imul (a b : Z) : Z := toInt32 (toInt32 a * toInt32 b).

End JS.

Import JS.

(** ** Numerology engine *)

Definition isMaster (n : Z) : bool := (n =? 11) || (n =? 22) || (n =? 33).

(** One pass of the loop body:
    [n.toString().split('').map(Number).reduce((a,b) => a+b, 0)]. *)
Definition resum (n : Z) : Z := sum (digitValues (toString n)).

(** The loop body strictly decreases a total above 9 and keeps it positive;
    this is what makes the [while] loop of [reduceDigits] terminate. *)
Lemma sum_snoc (xs : list Z) (x : Z) : sum (xs ++ [x]) = sum xs + x.
Proof. unfold sum. rewrite fold_left_app. reflexivity. Qed.

Lemma digitsOf_sum_bounds (n : Z) :
  0 <= n -> (n = 0 -> sum (digitsOf n) = 0) /\
            (1 <= n -> 1 <= sum (digitsOf n) <= n) /\
            (10 <= n -> sum (digitsOf n) < n).
Proof.
  funelim (digitsOf n); intros Hn.
  - unfold sum; simpl. lia.
  - rewrite sum_snoc.
    assert (Hq : 1 <= n / 10) by (apply Z.div_le_lower_bound; lia).
    assert (Hr : 0 <= n mod 10 < 10) by (apply Z.mod_pos_bound; lia).
    assert (Hd : n = 10 * (n / 10) + n mod 10) by (apply Z.div_mod; lia).
    match goal with IH : 0 <= n / 10 -> _ |- _ =>
      destruct IH as (_ & IH1 & _); [lia|] end.
    specialize (IH1 Hq). lia.
Qed.

Lemma digitValues_toString (n : Z) :
  0 <= n -> digitValues (toString n) = digitsOf n.
Proof.
  intros Hn. unfold toString, digitValues.
  destruct (n <? 0) eqn:E; [apply Z.ltb_lt in E; lia|].
  rewrite map_map. rewrite <- (map_id (digitsOf n)) at 2.
  apply map_ext. intros; lia.
Qed.

Lemma resum_decreases (n : Z) : 9 < n -> 1 <= resum n < n.
Proof.
  intros Hn. unfold resum. rewrite digitValues_toString by lia.
  destruct (digitsOf_sum_bounds n) as (_ & H1 & H2); lia.
Qed.

(** [reduceDigits]: [while (n > 9 && ![11,22,33].includes(n)) n = resum(n)]. *)
Equations? reduceDigits (n : Z) : Z by wf (Z.to_nat n) lt :=
reduceDigits n with Z_lt_dec 9 n => {
  | left _ with isMaster n => {
      | false := reduceDigits (resum n);
      | true := n };
  | right _ := n }.
Proof. pose proof (resum_decreases n); lia. Qed.

(** [lifePathFromDate] *)
Definition lifePathFromDate (isoDate : JSString) : Z :=
  let digits := digitValues (stripNonDigits isoDate) in
  let sum := sum digits in
  reduceDigits sum.

(** ** Sign table and sign lookup *)

Inductive Element := Fire | Earth | Air | Water.
Inductive Modality := Cardinal | Fixed | Mutable.

Definition elementName (e : Element) : JSString :=
  match e with
  | Fire => str "Fire" | Earth => str "Earth"
  | Air => str "Air" | Water => str "Water"
  end.

Definition modalityName (m : Modality) : JSString :=
  match m with
  | Cardinal => str "Cardinal" | Fixed => str "Fixed" | Mutable => str "Mutable"
  end.

Definition SignRecord : Type := JSString * (Z * Z) * (Z * Z) * Element * Modality.

Definition SIGN_TABLE : list SignRecord :=
  [ (str "Capricorn",   (12,22), (1,19),  Earth, Cardinal);
    (str "Aquarius",    (1,20),  (2,18),  Air,   Fixed);
    (str "Pisces",      (2,19),  (3,20),  Water, Mutable);
    (str "Aries",       (3,21),  (4,19),  Fire,  Cardinal);
    (str "Taurus",      (4,20),  (5,20),  Earth, Fixed);
    (str "Gemini",      (5,21),  (6,20),  Air,   Mutable);
    (str "Cancer",      (6,21),  (7,22),  Water, Cardinal);
    (str "Leo",         (7,23),  (8,22),  Fire,  Fixed);
    (str "Virgo",       (8,23),  (9,22),  Earth, Mutable);
    (str "Libra",       (9,23),  (10,22), Air,   Cardinal);
    (str "Scorpio",     (10,23), (11,21), Water, Fixed);
    (str "Sagittarius", (11,22), (12,21), Fire,  Mutable) ].

Definition SIGN_TRAITS : list (JSString * list JSString) :=
  [ (str "Aries", [str "bold"; str "energetic"; str "decisive"; str "pioneering"]);
    (str "Taurus", [str "steady"; str "sensual"; str "practical"; str "loyal"]);
    (str "Gemini", [str "curious"; str "adaptable"; str "witty"; str "communicative"]);
    (str "Cancer", [str "nurturing"; str "intuitive"; str "protective"; str "empathetic"]);
    (str "Leo", [str "confident"; str "creative"; str "warm"; str "charismatic"]);
    (str "Virgo", [str "analytical"; str "helpful"; str "meticulous"; str "grounded"]);
    (str "Libra", [str "harmonious"; str "diplomatic"; str "fair"; str "aesthetic"]);
    (str "Scorpio", [str "intense"; str "transformational"; str "private"; str "magnetic"]);
    (str "Sagittarius", [str "expansive"; str "optimistic"; str "philosophical"; str "adventurous"]);
    (str "Capricorn", [str "ambitious"; str "disciplined"; str "resilient"; str "strategic"]);
    (str "Aquarius", [str "visionary"; str "inventive"; str "independent"; str "humanitarian"]);
    (str "Pisces", [str "dreamy"; str "compassionate"; str "artistic"; str "mystical"]) ].

Definition SIGN_COLORS : list (JSString * JSString) :=
  [ (str "Aries", str "#ef4444");
    (str "Taurus", str "#22c55e");
    (str "Gemini", str "#06b6d4");
    (str "Cancer", str "#14b8a6");
    (str "Leo", str "#f59e0b");
    (str "Virgo", str "#84cc16");
    (str "Libra", str "#a78bfa");
    (str "Scorpio", str "#e11d48");
    (str "Sagittarius", str "#f97316");
    (str "Capricorn", str "#64748b");
    (str "Aquarius", str "#38bdf8");
    (str "Pisces", str "#60a5fa") ].

Definition CHINESE_ANIMALS : list JSString :=
  [ str "Rat"; str "Ox"; str "Tiger"; str "Rabbit"; str "Dragon"; str "Snake";
    str "Horse"; str "Goat"; str "Monkey"; str "Rooster"; str "Dog"; str "Pig" ].

(** [table[key]] on one of the two sign-keyed objects. *)
Definition lookup {A : Type} (table : list (JSString * A)) (key : JSString) : option A :=
  option_map snd (find (fun kv => eqb (fst kv) key) table).

(** [toDateParts]: [isoDate.split('-').map(Number)], destructured. [None]
    when one of the first three pieces is missing or is not a plain decimal
    literal. *)
Definition toDateParts (isoDate : JSString) : option (Z * Z * Z) :=
  match map Number (split 45 isoDate) with
  | Some y :: Some m :: Some d :: _ => Some (y, m, d)
  | _ => None
  end.

Module SunSign.
Record t := mk { sign : JSString; element : Element; modality : Modality }.
End SunSign.

(** The test in the body of the loop of [getSunSign]. *)
Definition matches (m d : Z) (r : SignRecord) : bool :=
  let '(_, (sm, sd), (em, ed), _, _) := r in
  let afterStart := (sm <? m) || ((m =? sm) && (sd <=? d)) in
  let beforeEnd := (m <? em) || ((m =? em) && (d <=? ed)) in
  ((sm <=? em) && afterStart && beforeEnd) || ((em <? sm) && (afterStart || beforeEnd)).

Definition recordSign (r : SignRecord) : SunSign.t :=
  let '(name, _, _, element, modality) := r in SunSign.mk name element modality.

(** The loop of [getSunSign] with its early return, and the fallback after it. *)
Definition signOf (m d : Z) : SunSign.t :=
  match find (matches m d) SIGN_TABLE with
  | Some r => recordSign r
  | None => SunSign.mk (str "Capricorn") Earth Cardinal
  end.

Definition getSunSign (isoDate : JSString) : option SunSign.t :=
  match toDateParts isoDate with
  | Some (y, m, d) => Some (signOf m d)
  | None => None
  end.

(** ** Cyclic zodiac *)

Definition zodiacPos (y : Z) : Z :=
  let idx := Z.rem (y - 2008) 12 in
  let pos := Z.rem (idx + 12) 12 in
  pos.

(** [chineseZodiacFromYear]; [None] stands for [undefined] (and for a year
    text outside the embedded fragment of [Number]). *)
Definition chineseZodiacFromYear (isoDate : JSString) : option JSString :=
  match Number (slice0 4 isoDate) with
  | Some y => index CHINESE_ANIMALS (zodiacPos y)
  | None => None
  end.

(** ** Lucky values *)

Definition luckyTable : list Z := [3; 6; 9; 2; 1; 8; 7; 5; 4].

Definition luckyNumber (lifePath : Z) : option Z :=
  let table := luckyTable in
  index table (Z.rem (lifePath - 1) (Z.of_nat (List.length table))).

(** ** Profile composer *)

Module BirthInput.
Record t := mk {
  name : JSString;
  date : JSString;
  time : JSString;
  place : JSString;
  tzOffset : JSString }.
End BirthInput.

(** [lifePath] is an integer in every profile the composer builds;
    [luckyNumber] is [undefined] when the table is indexed out of range. *)
Module AstroProfile.
Record t := mk {
  name : JSString;
  sunSign : JSString;
  element : Element;
  modality : Modality;
  lifePath : Z;
  chineseAnimal : JSString;
  luckyColor : JSString;
  luckyNumber : option Z;
  summary : JSString }.
End AstroProfile.

(** [profileFromBirth]; [None] when the date text is outside the embedded
    fragment of [Number]. *)
Definition profileFromBirth (input : BirthInput.t) : option AstroProfile.t :=
  match getSunSign (BirthInput.date input),
        chineseZodiacFromYear (BirthInput.date input) with
  | Some sun, Some chinese =>
      let life := lifePathFromDate (BirthInput.date input) in
      let color := match lookup SIGN_COLORS (SunSign.sign sun) with
                   | Some c => c
                   | None => str "#38bdf8"
                   end in
      let lucky := luckyNumber life in
      let traits := match lookup SIGN_TRAITS (SunSign.sign sun) with
                    | Some ts => ts
                    | None => []
                    end in
      let summary :=
        BirthInput.name input ++ str ", you're a " ++ SunSign.sign sun
        ++ str " (" ++ elementName (SunSign.element sun) ++ str ", "
        ++ modalityName (SunSign.modality sun) ++ str "). Traits: "
        ++ join (str ", ") (firstn 3 traits) ++ str ". Life Path "
        ++ toString life ++ str ". Chinese Zodiac: " ++ chinese ++ str "." in
      Some (AstroProfile.mk
              (BirthInput.name input)
              (SunSign.sign sun)
              (SunSign.element sun)
              (SunSign.modality sun)
              life
              chinese
              color
              lucky
              summary)
  | _, _ => None
  end.

(** ** Seeded selector *)

(** One turn of the loop of [seedFrom]:
    [h ^= str.charCodeAt(i); h = Math.imul(h, 16777619)]. *)
Definition hashStep (h c : Z) : Z := imul (xor32 h c) 16777619.

Definition hash32 (s : JSString) : Z := fold_left hashStep s 2166136261.

(** [seedFrom]: [(h >>> 0) / 2**32]. The quotient of an unsigned 32-bit
    integer by 2^32 is a double without rounding, and so is its product
    with a list length below 2^21: rationals give the same values. *)
Definition seedFrom (s : JSString) : Q :=
  (inject_Z (toUint32 (hash32 s)) / inject_Z (2 ^ 32))%Q.

Definition DAILY_AFFIRM : list JSString :=
  [ str "Trust the process; your path unfolds as you act.";
    str "Small consistent steps beat rare bursts of effort.";
    str "Ask for help; collaboration brings faster clarity.";
    str "Rest fuels insight" ++ [8212] ++ str "balance doing with being.";
    str "Lead with kindness; it compounds quietly.";
    str "Be curious; questions unlock opportunities.";
    str "Declutter one thing; make room for growth." ].

Definition dailyIndex (name isoDate : JSString) : Z :=
  let seed := seedFrom (name ++ isoDate) in
  Qfloor (seed * inject_Z (Z.of_nat (List.length DAILY_AFFIRM))).

Definition dailyMessage (name isoDate : JSString) : option JSString :=
  index DAILY_AFFIRM (dailyIndex name isoDate).

(** ** Rule-based question router *)

Definition KEYWORDS : list JSString :=
  [ str "career"; str "job"; str "work"; str "internship"; str "study";
    str "exam"; str "love"; str "relationship"; str "marriage"; str "health";
    str "money"; str "finance"; str "wealth" ].

(** The [case] labels that share one branch of the [switch]. *)
Definition isCase (key : JSString) (labels : list JSString) : bool :=
  existsb (eqb key) labels.

Definition careerText (e : Element) : JSString :=
  match e with
  | Fire => str "act boldly the next 7" ++ [8211] ++ str "10 days; pitch ideas and network. Document wins daily; momentum is your ally."
  | Earth => str "focus on process" ++ [8212] ++ str "refactor routines, learn one automation, and ship one small improvement this week."
  | Air => str "ideate and communicate" ++ [8212] ++ str "write a one" ++ [8209] ++ str "page plan, seek feedback, and iterate fast."
  | Water => str "trust intuition" ++ [8212] ++ str "choose fewer, deeper tasks; avoid overcommitting; flow > force."
  end.

Definition studyText (m : Modality) : JSString :=
  match m with
  | Mutable => str "use spaced repetition + quick quizzes; rotate subjects to stay engaged."
  | Fixed => str "create a strict block schedule; deep work in 50" ++ [8209] ++ str "min chunks, minimal context switching."
  | Cardinal => str "start with an outline and teach-back method; you'll learn fastest by explaining."
  end.

Definition loveText : JSString :=
  str "name your needs directly this week; schedule one shared ritual. Tiny, reliable gestures beat grand promises.".

Definition healthText : JSString :=
  str "prioritize sleep consistency and light morning movement; pick one nourishing meal you can repeat.".

Definition moneyText : JSString :=
  str "do a 30" ++ [8209] ++ str "minute review: subscriptions, 1% saving bump, and one low" ++ [8209] ++ str "risk upskill investment.".

Definition clarifyText : JSString :=
  str "clarify intention in one sentence, take the smallest next step today, and review results in 48 hours.".

(** [base], the prefix every answer of [qaFallback] starts with. *)
Definition base (profile : AstroProfile.t) : JSString :=
  str "As a " ++ AstroProfile.sunSign profile ++ str " ("
  ++ elementName (AstroProfile.element profile) ++ str "), Life Path "
  ++ toString (AstroProfile.lifePath profile) ++ str ": ".

Section Router.

(** [String.prototype.toLowerCase], whose Unicode case tables are the
    platform's. *)
Variable toLowerCase : JSString -> JSString.

Definition qaFallback (question : JSString) (profile : AstroProfile.t) : JSString :=
  let q := toLowerCase question in
  let key := find (fun k => includes q k) KEYWORDS in
  let base := base profile in
  match key with
  | Some k =>
      if isCase k [str "career"; str "job"; str "work"; str "internship"]
      then base ++ careerText (AstroProfile.element profile)
      else if isCase k [str "study"; str "exam"]
      then base ++ studyText (AstroProfile.modality profile)
      else if isCase k [str "love"; str "relationship"; str "marriage"]
      then base ++ loveText
      else if isCase k [str "health"]
      then base ++ healthText
      else if isCase k [str "money"; str "finance"; str "wealth"]
      then base ++ moneyText
      else base ++ clarifyText
  | None => base ++ clarifyText
  end.

End Router.

(** ASCII lower-casing, with which [toLowerCase] agrees on ASCII text. *)
Definition asciiLowerCase (s : JSString) : JSString :=
  map (fun c => if (65 <=? c) && (c <=? 90) then c + 32 else c) s.

(** ** Input shapes the properties quantify over *)

(** The caller's check of the date field: [/^\d{4}-\d{2}-\d{2}$/]. *)
Definition isDateText (s : JSString) : bool :=
  match s with
  | [y1; y2; y3; y4; h1; m1; m2; h2; d1; d2] =>
      forallb isDigit [y1; y2; y3; y4; m1; m2; d1; d2] && (h1 =? 45) && (h2 =? 45)
  | _ => false
  end.

Definition isYearText (s : JSString) : bool :=
  (List.length s =? 4)%nat && forallb isDigit s.

Definition pad2 (n : Z) : JSString := [48 + n / 10; 48 + n mod 10].

(** The date text of month [m], day [d] in the year written [yyyy]. *)
Definition isoDate (yyyy : JSString) (m d : Z) : JSString :=
  yyyy ++ str "-" ++ pad2 m ++ str "-" ++ pad2 d.

Definition daysIn (m : Z) : Z :=
  if m =? 2 then 29
  else if (m =? 4) || (m =? 6) || (m =? 9) || (m =? 11) then 30
  else 31.

Definition validMonthDay (m d : Z) : Prop :=
  1 <= m <= 12 /\ 1 <= d <= daysIn m.

(** The values the design document allows for a life path. *)
Definition LIFE_PATHS : list Z := [1; 2; 3; 4; 5; 6; 7; 8; 9; 11; 22; 33].

(** ** The design document's own wording, to compare the code with *)

(** The reduction in the words of the design document: re-sum the decimal
    digits of the running total until it is at most 9 or a master number. *)
Inductive ResumsTo : Z -> Z -> Prop :=
| ResumsTo_stop (n : Z) :
    n <= 9 \/ n = 11 \/ n = 22 \/ n = 33 -> ResumsTo n n
| ResumsTo_again (n r : Z) :
    ~ (n <= 9 \/ n = 11 \/ n = 22 \/ n = 33) ->
    ResumsTo (sum (digitsOf n)) r -> ResumsTo n r.

(** The sum of the digits of a text, non-digits left out. *)
Fixpoint digitSum (s : JSString) : Z :=
  match s with
  | [] => 0
  | c :: rest => if isDigit c then (c - 48) + digitSum rest else digitSum rest
  end.

(** The hash in the words of the design document: FNV-1a on unsigned 32-bit
    integers, over the code units of the text. *)
Definition fnv1a32 (s : JSString) : Z :=
  fold_left (fun h c => (Z.lxor h c * 16777619) mod 2 ^ 32) s 2166136261.

Definition CodeUnits (s : JSString) : Prop := Forall (fun c => 0 <= c < 65536) s.

(** One turn of that hash. *)
Definition fnvStep (h c : Z) : Z := (Z.lxor h c * 16777619) mod 2 ^ 32.

(** The eleven answer texts that can follow [base]. *)
Definition ANSWERS : list JSString :=
  [ careerText Fire; careerText Earth; careerText Air; careerText Water;
    studyText Mutable; studyText Fixed; studyText Cardinal;
    loveText; healthText; moneyText; clarifyText ].

(** ** The form in front of the engine ([App.tsx]) *)

(** [classNames(...xs)]: [xs.filter(Boolean).join(" ")]. An argument is a
    string or one of [false], [null], [undefined], here [None]. *)
Definition truthy (x : option JSString) : bool :=
  match x with
  | Some (_ :: _) => true
  | _ => false
  end.

Definition strings (xs : list (option JSString)) : list JSString :=
  flat_map (fun x => match x with Some s => [s] | None => [] end) xs.

Definition classNames (xs : list (option JSString)) : JSString :=
  join (str " ") (strings (filter truthy xs)).

(** [/^\d{2}:\d{2}$/] *)
Definition isTimeText (s : JSString) : bool :=
  match s with
  | [h1; h2; c; m1; m2] => forallb isDigit [h1; h2; m1; m2] && (c =? 58)
  | _ => false
  end.

(** [/^[+-]\d{2}:\d{2}$/] *)
Definition isOffsetText (s : JSString) : bool :=
  match s with
  | [sg; h1; h2; c; m1; m2] =>
      ((sg =? 43) || (sg =? 45)) && forallb isDigit [h1; h2; m1; m2] && (c =? 58)
  | _ => false
  end.

(** [z.string().min(1, message)] *)
Definition min1 (s : JSString) : bool := (1 <=? List.length s)%nat.

(** The messages of the issues of [birthSchema.safeParse(input)], one for
    each field that fails its check, in the order of the schema. *)
Definition birthSchemaIssues (input : BirthInput.t) : list JSString :=
  (if min1 (BirthInput.name input) then [] else [str "Your name is required"])
  ++ (if isDateText (BirthInput.date input) then [] else [str "Use YYYY-MM-DD"])
  ++ (if isTimeText (BirthInput.time input) then [] else [str "Use HH:MM (24h)"])
  ++ (if min1 (BirthInput.place input) then [] else [str "Birth place is required"])
  ++ (if isOffsetText (BirthInput.tzOffset input) then [] else [str "e.g. +05:30"]).

(** The two pieces of the component's state that [handleGenerate] writes. *)
Module AppState.
Record t := mk { profile : option AstroProfile.t; response : JSString }.
End AppState.

(** [handleGenerate]: the state after the click and the text of the alert,
    if one is shown. [None] when the date is outside the embedded fragment
    of [Number]. *)
Definition handleGenerate (input : BirthInput.t) (st : AppState.t)
  : option (AppState.t * option JSString) :=
  match birthSchemaIssues input with
  | [] =>
      match profileFromBirth input with
      | Some prof => Some (AppState.mk (Some prof) [], None)
      | None => None
      end
  | issues => Some (st, Some (join [10] issues))
  end.

(** The number a run of decimal digits writes. *)
Definition digitsValue (s : JSString) : Z :=
  fold_left (fun acc c => 10 * acc + (c - 48)) s 0.

(** The year, month and day fields of a text of the form YYYY-MM-DD. *)
Definition yearField (s : JSString) : JSString := firstn 4 s.
Definition monthField (s : JSString) : JSString := firstn 2 (skipn 5 s).
Definition dayField (s : JSString) : JSString := firstn 2 (skipn 8 s).

(** The [case] labels of [qaFallback], branch by branch. *)
Definition CAREER_KEYS : list JSString :=
  [str "career"; str "job"; str "work"; str "internship"].
Definition STUDY_KEYS : list JSString := [str "study"; str "exam"].
Definition LOVE_KEYS : list JSString :=
  [str "love"; str "relationship"; str "marriage"].
Definition HEALTH_KEYS : list JSString := [str "health"].
Definition MONEY_KEYS : list JSString := [str "money"; str "finance"; str "wealth"].

(** ** Sign lookup: the twelve intervals tile the year *)

Lemma isDigit_bounds (c : Z) : isDigit c = true <-> 48 <= c <= 57.
Proof. unfold isDigit. rewrite andb_true_iff, !Z.leb_le. tauto. Qed.

Lemma split_no_sep (sep : Z) (s : JSString) :
  forallb (fun c => negb (c =? sep)) s = true -> split sep s = [s].
Proof.
  induction s as [|c s IH]; simpl; [reflexivity|].
  rewrite andb_true_iff, negb_true_iff. intros [Hc Hs].
  rewrite Hc, (IH Hs). reflexivity.
Qed.

Lemma split_app_sep (sep : Z) (a b : JSString) :
  forallb (fun c => negb (c =? sep)) a = true ->
  split sep (a ++ sep :: b) = a :: split sep b.
Proof.
  induction a as [|c a IH]; simpl.
  - intros _. rewrite Z.eqb_refl. reflexivity.
  - rewrite andb_true_iff, negb_true_iff. intros [Hc Ha].
    rewrite Hc, (IH Ha). reflexivity.
Qed.

Lemma digits_no_dash (s : JSString) :
  forallb isDigit s = true -> forallb (fun c => negb (c =? 45)) s = true.
Proof.
  rewrite !forallb_forall. intros H c Hc. apply H in Hc.
  apply isDigit_bounds in Hc. apply negb_true_iff, Z.eqb_neq. lia.
Qed.

Lemma decimalValue_digits (s : JSString) (acc : Z) :
  forallb isDigit s = true -> exists v, decimalValue acc s = Some v.
Proof.
  revert acc. induction s as [|c s IH]; simpl; intros acc.
  - eauto.
  - rewrite andb_true_iff. intros [Hc Hs]. rewrite Hc. apply IH, Hs.
Qed.

Lemma Number_year (yyyy : JSString) :
  isYearText yyyy = true -> exists y, Number yyyy = Some y.
Proof.
  unfold isYearText. rewrite andb_true_iff, Nat.eqb_eq. intros [Hl Hd].
  destruct yyyy as [|c rest]; [discriminate|].
  assert (Hc : 48 <= c <= 57).
  { apply isDigit_bounds. simpl in Hd. apply andb_true_iff in Hd. tauto. }
  unfold Number.
  replace (c =? 45) with false by (symmetry; apply Z.eqb_neq; lia).
  replace (c =? 43) with false by (symmetry; apply Z.eqb_neq; lia).
  simpl andb. cbv iota. rewrite Hl. simpl Nat.leb. cbv iota.
  apply decimalValue_digits, Hd.
Qed.

Lemma decimalValue_cons (acc c : Z) (rest : JSString) :
  48 <= c <= 57 ->
  decimalValue acc (c :: rest) = decimalValue (10 * acc + (c - 48)) rest.
Proof.
  intros Hc. apply isDigit_bounds in Hc. cbn [decimalValue]. rewrite Hc.
  reflexivity.
Qed.

Lemma Number_pad2 (n : Z) : 0 <= n <= 99 -> Number (pad2 n) = Some n.
Proof.
  intros Hn. unfold pad2, Number.
  assert (0 <= n / 10 < 10) by (split; [apply Z.div_pos|apply Z.div_lt_upper_bound]; lia).
  assert (0 <= n mod 10 < 10) by (apply Z.mod_pos_bound; lia).
  replace (48 + n / 10 =? 45) with false by (symmetry; apply Z.eqb_neq; lia).
  replace (48 + n / 10 =? 43) with false by (symmetry; apply Z.eqb_neq; lia).
  cbn [List.length Nat.eqb Nat.leb negb andb].
  rewrite !decimalValue_cons by lia. cbn [decimalValue].
  f_equal. pose proof (Z.div_mod n 10). lia.
Qed.

Lemma pad2_digits (n : Z) : 0 <= n <= 99 -> forallb isDigit (pad2 n) = true.
Proof.
  intros Hn. unfold pad2.
  assert (0 <= n / 10 < 10) by (split; [apply Z.div_pos|apply Z.div_lt_upper_bound]; lia).
  assert (0 <= n mod 10 < 10) by (apply Z.mod_pos_bound; lia).
  cbn [forallb]. rewrite !andb_true_iff. repeat split; try apply isDigit_bounds; lia.
Qed.

Lemma toDateParts_isoDate (yyyy : JSString) (m d : Z) :
  isYearText yyyy = true -> 0 <= m <= 99 -> 0 <= d <= 99 ->
  exists y, toDateParts (isoDate yyyy m d) = Some (y, m, d).
Proof.
  intros Hy Hm Hd. destruct (Number_year yyyy Hy) as [y Ey]. exists y.
  unfold isYearText in Hy. apply andb_true_iff in Hy. destruct Hy as [_ Hy].
  unfold toDateParts.
  replace (isoDate yyyy m d) with (yyyy ++ 45 :: (pad2 m ++ 45 :: pad2 d))
    by reflexivity.
  rewrite split_app_sep by (apply digits_no_dash, Hy).
  rewrite split_app_sep by (apply digits_no_dash, pad2_digits, Hm).
  rewrite split_no_sep by (apply digits_no_dash, pad2_digits, Hd).
  cbn [map]. rewrite Ey, (Number_pad2 m Hm), (Number_pad2 d Hd). reflexivity.
Qed.

Lemma month_cases (m : Z) :
  1 <= m <= 12 ->
  m = 1 \/ m = 2 \/ m = 3 \/ m = 4 \/ m = 5 \/ m = 6 \/
  m = 7 \/ m = 8 \/ m = 9 \/ m = 10 \/ m = 11 \/ m = 12.
Proof. lia. Qed.

Ltac split_on_day d :=
  repeat match goal with
         | |- context [?a <=? d] => destruct (Z.leb_spec a d)
         | |- context [d <=? ?a] => destruct (Z.leb_spec d a)
         end.

(** In every month, whatever the day number, one record and only one passes
    the test of the loop, and the loop returns it. *)
Lemma sign_tiling (m d : Z) :
  1 <= m <= 12 ->
  exists r, filter (matches m d) SIGN_TABLE = [r] /\ signOf m d = recordSign r.
Proof.
  intros Hm. unfold signOf.
  destruct (month_cases m Hm) as [E|[E|[E|[E|[E|[E|[E|[E|[E|[E|[E|E]]]]]]]]]]];
    subst m; unfold SIGN_TABLE; cbn [filter find matches];
    cbn [Z.ltb Z.leb Z.eqb Z.compare Pos.compare Pos.compare_cont Pos.eqb andb orb];
    split_on_day d; cbn [andb orb]; try lia; eexists; split; reflexivity.
Qed.

(** C1. Every valid calendar (month, day) passes the interval test of exactly
    one record of the sign table, and [getSunSign] returns the sign, element
    and modality of that record for the date text of any four-digit year; the
    six boundary dates fall on Aries, Pisces, Sagittarius, Capricorn,
    Capricorn and Aquarius. *)
Theorem getSunSign_partition (yyyy : JSString) (m d : Z) :
  isYearText yyyy = true ->
  validMonthDay m d ->
  (exists r, In r SIGN_TABLE /\
             filter (matches m d) SIGN_TABLE = [r] /\
             getSunSign (isoDate yyyy m d) = Some (recordSign r)) /\
  getSunSign (isoDate yyyy 3 21) = Some (SunSign.mk (str "Aries") Fire Cardinal) /\
  getSunSign (isoDate yyyy 3 20) = Some (SunSign.mk (str "Pisces") Water Mutable) /\
  getSunSign (isoDate yyyy 12 21) = Some (SunSign.mk (str "Sagittarius") Fire Mutable) /\
  getSunSign (isoDate yyyy 12 22) = Some (SunSign.mk (str "Capricorn") Earth Cardinal) /\
  getSunSign (isoDate yyyy 1 19) = Some (SunSign.mk (str "Capricorn") Earth Cardinal) /\
  getSunSign (isoDate yyyy 1 20) = Some (SunSign.mk (str "Aquarius") Air Fixed).
Proof.
  intros Hy [Hm Hd].
  assert (Hday : daysIn m <= 31).
  { unfold daysIn. repeat match goal with |- context [if ?b then _ else _] => destruct b end; lia. }
  assert (Hpart : forall m' d', 1 <= m' <= 12 -> 0 <= d' <= 99 ->
            getSunSign (isoDate yyyy m' d') = Some (signOf m' d')).
  { intros m' d' Hm' Hd'.
    destruct (toDateParts_isoDate yyyy m' d' Hy) as [y Ey]; [lia|lia|].
    unfold getSunSign. rewrite Ey. reflexivity. }
  split.
  - destruct (sign_tiling m d Hm) as (r & Hf & Hs). exists r.
    split; [|split].
    + assert (Hin : In r (filter (matches m d) SIGN_TABLE)) by (rewrite Hf; left; reflexivity).
      apply filter_In in Hin. tauto.
    + exact Hf.
    + rewrite Hpart by lia. rewrite Hs. reflexivity.
  - repeat split; rewrite Hpart by lia; reflexivity.
Qed.

Lemma getSunSign_partition_witness :
  exists r, In r SIGN_TABLE /\
            filter (matches 2 29) SIGN_TABLE = [r] /\
            getSunSign (str "2024-02-29") = Some (recordSign r).
Proof.
  apply (getSunSign_partition (str "2024") 2 29).
  - reflexivity.
  - unfold validMonthDay, daysIn. simpl. lia.
Defined.

(** ** Cyclic zodiac *)

Lemma zodiacPos_mod (y : Z) : zodiacPos y = (y - 2008) mod 12.
Proof. unfold zodiacPos. Z.to_euclidean_division_equations. lia. Qed.

Lemma zodiacPos_range (y : Z) : 0 <= zodiacPos y < 12.
Proof. rewrite zodiacPos_mod. apply Z.mod_pos_bound. lia. Qed.

Lemma zodiacPos_period (y : Z) : zodiacPos (y + 12) = zodiacPos y.
Proof.
  rewrite !zodiacPos_mod.
  replace (y + 12 - 2008) with (y - 2008 + 1 * 12) by lia.
  apply Z.mod_add. lia.
Qed.

Lemma zodiac_defined (y : Z) : exists a, index CHINESE_ANIMALS (zodiacPos y) = Some a.
Proof.
  pose proof (zodiacPos_range y) as Hr. unfold index.
  destruct (zodiacPos y <? 0) eqn:E; [apply Z.ltb_lt in E; lia|].
  destruct (nth_error CHINESE_ANIMALS (Z.to_nat (zodiacPos y))) eqn:En; [eauto|].
  apply nth_error_None in En. change (List.length CHINESE_ANIMALS) with 12%nat in En.
  lia.
Qed.

(** C2, as the code has it. Every date text that starts with the year 2008
    maps to Rat, and so does every one that starts with 2020, twelve years
    later; Dragon is the animal of 2012 and of 2024. The epoch year has
    index 0, the place of Rat in the animal list. *)
Theorem chineseZodiac_epoch :
  (forall rest, chineseZodiacFromYear (str "2008" ++ rest) = Some (str "Rat")) /\
  (forall rest, chineseZodiacFromYear (str "2020" ++ rest) = Some (str "Rat")) /\
  (forall rest, chineseZodiacFromYear (str "2012" ++ rest) = Some (str "Dragon")) /\
  (forall rest, chineseZodiacFromYear (str "2024" ++ rest) = Some (str "Dragon")) /\
  zodiacPos 2008 = 0 /\
  index CHINESE_ANIMALS 0 = Some (str "Rat").
Proof.
  repeat split; intros; reflexivity.
Qed.

(** C2 as stated fails: a date of the year 2020 maps to Rat, not to Dragon. *)
Lemma chineseZodiac_2020_not_Dragon :
  chineseZodiacFromYear (str "2020-01-01") = Some (str "Rat") /\
  chineseZodiacFromYear (str "2020-01-01") <> Some (str "Dragon").
Proof.
  split; [reflexivity|]. vm_compute. discriminate.
Qed.

(** C9. The zodiac has period 12: the year [y] and the year [y + 12] get the
    same animal, whatever the sign of [y - 2008]; the index is
    [(y - 2008) mod 12], never negative, and the animal is always defined. *)
Theorem chineseZodiac_periodic (s1 s2 : JSString) (y : Z) :
  Number (slice0 4 s1) = Some y ->
  Number (slice0 4 s2) = Some (y + 12) ->
  chineseZodiacFromYear s1 = chineseZodiacFromYear s2 /\
  (exists a, chineseZodiacFromYear s1 = Some a) /\
  zodiacPos (y + 12) = zodiacPos y /\
  0 <= zodiacPos y < 12.
Proof.
  intros H1 H2. unfold chineseZodiacFromYear. rewrite H1, H2.
  rewrite zodiacPos_period.
  repeat split; try apply zodiacPos_range. apply zodiac_defined.
Qed.

Lemma chineseZodiac_periodic_witness :
  chineseZodiacFromYear (str "1995-06-15") = chineseZodiacFromYear (str "2007-06-15") /\
  (exists a, chineseZodiacFromYear (str "1995-06-15") = Some a) /\
  zodiacPos (1995 + 12) = zodiacPos 1995 /\
  0 <= zodiacPos 1995 < 12.
Proof.
  apply (chineseZodiac_periodic (str "1995-06-15") (str "2007-06-15") 1995);
    reflexivity.
Defined.

(** ** Numerology *)

Lemma fold_add_from (xs : list Z) (a : Z) :
  fold_left Z.add xs a = a + fold_left Z.add xs 0.
Proof.
  revert a. induction xs as [|x xs IH]; intros a; cbn [fold_left]; [lia|].
  rewrite (IH (a + x)), (IH (0 + x)). lia.
Qed.

Lemma sum_cons (x : Z) (xs : list Z) : sum (x :: xs) = x + sum xs.
Proof. unfold sum. cbn [fold_left]. rewrite fold_add_from. lia. Qed.

(** The code's strip, split, convert and add is the sum of the digits. *)
Lemma digitSum_code (s : JSString) :
  sum (digitValues (stripNonDigits s)) = digitSum s.
Proof.
  induction s as [|c s IH]; [reflexivity|].
  unfold stripNonDigits, digitValues in *. cbn [filter digitSum].
  destruct (isDigit c); [|exact IH].
  cbn [map]. rewrite sum_cons, IH. reflexivity.
Qed.

Lemma isMaster_spec (n : Z) : isMaster n = true <-> n = 11 \/ n = 22 \/ n = 33.
Proof. unfold isMaster. rewrite !orb_true_iff, !Z.eqb_eq. tauto. Qed.

Lemma resum_digits (n : Z) : 0 <= n -> resum n = sum (digitsOf n).
Proof. intros Hn. unfold resum. rewrite digitValues_toString by lia. reflexivity. Qed.

Lemma reduceDigits_ResumsTo (n : Z) : ResumsTo n (reduceDigits n).
Proof.
  funelim (reduceDigits n).
  - apply ResumsTo_stop. left. lia.
  - apply ResumsTo_stop. right. apply isMaster_spec. assumption.
  - apply ResumsTo_again.
    + intros [Hle|Hm]; [lia|]. apply isMaster_spec in Hm. congruence.
    + rewrite <- resum_digits by lia. assumption.
Qed.

Lemma ResumsTo_functional (n r1 r2 : Z) : ResumsTo n r1 -> ResumsTo n r2 -> r1 = r2.
Proof.
  intros H1. revert r2. induction H1 as [n Hs|n r Hn _ IH]; intros r2 H2.
  - inversion H2; subst; [reflexivity|contradiction].
  - inversion H2; subst; [contradiction|]. apply IH. assumption.
Qed.

Lemma ResumsTo_stops (n r : Z) :
  ResumsTo n r -> r <= 9 \/ r = 11 \/ r = 22 \/ r = 33.
Proof. induction 1; assumption. Qed.

Lemma reduceDigits_positive (n : Z) : 1 <= n -> In (reduceDigits n) LIFE_PATHS.
Proof.
  funelim (reduceDigits n); intros Hn.
  - unfold LIFE_PATHS. simpl. lia.
  - match goal with Hm : isMaster n = true |- _ => apply isMaster_spec in Hm end.
    unfold LIFE_PATHS. simpl. lia.
  - match goal with IH : 1 <= resum n -> _ |- _ => apply IH end.
    apply resum_decreases. lia.
Qed.

(** C3. The life path is the digit sum of the date text, non-digits left
    out, re-summed over its decimal digits until it is at most 9 or one of
    11, 22, 33, and nothing else; 1990-01-01 gives 21 and then 3, and a
    digit sum of 29 gives 11, which is kept. *)
Theorem lifePath_reduction :
  (forall s, lifePathFromDate s = reduceDigits (digitSum s)) /\
  (forall s r, ResumsTo (digitSum s) r <-> r = lifePathFromDate s) /\
  (forall s, lifePathFromDate s <= 9 \/ lifePathFromDate s = 11 \/
             lifePathFromDate s = 22 \/ lifePathFromDate s = 33) /\
  (digitSum (str "1990-01-01") = 21 /\ resum 21 = 3 /\
   lifePathFromDate (str "1990-01-01") = 3) /\
  (forall s, digitSum s = 29 -> lifePathFromDate s = 11) /\
  (resum 29 = 11 /\ resum 11 = 2 /\ reduceDigits 11 = 11).
Proof.
  assert (Hcode : forall s, lifePathFromDate s = reduceDigits (digitSum s)).
  { intros s. unfold lifePathFromDate. cbv zeta. rewrite digitSum_code. reflexivity. }
  split; [exact Hcode|].
  split; [|split; [|split; [|split]]].
  - intros s r. rewrite Hcode. split.
    + intros H. apply (ResumsTo_functional (digitSum s)); [assumption|].
      apply reduceDigits_ResumsTo.
    + intros ->. apply reduceDigits_ResumsTo.
  - intros s. rewrite Hcode. apply (ResumsTo_stops (digitSum s)).
    apply reduceDigits_ResumsTo.
  - repeat split; reflexivity.
  - intros s Hs. rewrite Hcode, Hs. reflexivity.
  - repeat split; reflexivity.
Qed.

Lemma lifePath_reduction_witness :
  digitSum (str "1979-11-01") = 29 /\ lifePathFromDate (str "1979-11-01") = 11.
Proof.
  split; [reflexivity|].
  apply (proj1 (proj2 (proj2 (proj2 (proj2 lifePath_reduction))))).
  reflexivity.
Defined.

Lemma lifePath_range (s : JSString) :
  1 <= digitSum s -> In (lifePathFromDate s) LIFE_PATHS.
Proof.
  intros H. unfold lifePathFromDate. cbv zeta. rewrite digitSum_code.
  apply reduceDigits_positive. exact H.
Qed.

(** The digit sum of a text that passes the caller's check, and the one
    text among them where it is zero. *)
Lemma dateText_digitSum (s : JSString) :
  isDateText s = true ->
  0 <= digitSum s <= 72 /\ (digitSum s = 0 -> s = str "0000-00-00").
Proof.
  unfold isDateText.
  destruct s as [|y1 [|y2 [|y3 [|y4 [|h1 [|m1 [|m2 [|h2 [|d1 [|d2 [|x s]]]]]]]]]]];
    try discriminate.
  cbn [forallb]. rewrite !andb_true_iff, !Z.eqb_eq.
  intros [[(Hy1 & Hy2 & Hy3 & Hy4 & Hm1 & Hm2 & Hd1 & Hd2 & _) ->] ->].
  rewrite <- digitSum_code. unfold stripNonDigits. cbn [filter].
  rewrite Hy1, Hy2, Hy3, Hy4, Hm1, Hm2, Hd1, Hd2.
  change (isDigit 45) with false. cbv iota.
  apply isDigit_bounds in Hy1, Hy2, Hy3, Hy4, Hm1, Hm2, Hd1, Hd2.
  unfold digitValues, sum. cbn [map fold_left].
  split; [lia|]. intros H0.
  assert (y1 = 48 /\ y2 = 48 /\ y3 = 48 /\ y4 = 48 /\
          m1 = 48 /\ m2 = 48 /\ d1 = 48 /\ d2 = 48) as (-> & -> & -> & -> & -> & -> & -> & ->)
    by lia.
  reflexivity.
Qed.

Lemma dateText_parts (s : JSString) :
  isDateText s = true ->
  exists yyyy m d, isYearText yyyy = true /\ 0 <= m <= 99 /\ 0 <= d <= 99 /\
                   s = isoDate yyyy m d.
Proof.
  unfold isDateText.
  destruct s as [|y1 [|y2 [|y3 [|y4 [|h1 [|m1 [|m2 [|h2 [|d1 [|d2 [|x s]]]]]]]]]]];
    try discriminate.
  cbn [forallb]. rewrite !andb_true_iff, !Z.eqb_eq.
  intros [[(Hy1 & Hy2 & Hy3 & Hy4 & Hm1 & Hm2 & Hd1 & Hd2 & _) ->] ->].
  exists [y1; y2; y3; y4], (10 * (m1 - 48) + (m2 - 48)), (10 * (d1 - 48) + (d2 - 48)).
  split; [|split; [|split]].
  - unfold isYearText. cbn [List.length Nat.eqb forallb].
    rewrite Hy1, Hy2, Hy3, Hy4. reflexivity.
  - apply isDigit_bounds in Hm1, Hm2. lia.
  - apply isDigit_bounds in Hd1, Hd2. lia.
  - apply isDigit_bounds in Hm1, Hm2, Hd1, Hd2.
    unfold isoDate, pad2. change (str "-") with [45]. cbn [app].
    repeat f_equal.
    all: Z.to_euclidean_division_equations; lia.
Qed.

(** On a text that passes the caller's check the composer builds a profile,
    and the life path it stores is the one of the date. *)
Lemma profileFromBirth_dateText (input : BirthInput.t) :
  isDateText (BirthInput.date input) = true ->
  exists p, profileFromBirth input = Some p /\
            AstroProfile.lifePath p = lifePathFromDate (BirthInput.date input).
Proof.
  intros Hd. destruct (dateText_parts _ Hd) as (yyyy & m & d & Hy & Hm & Hdd & E).
  destruct (toDateParts_isoDate yyyy m d Hy Hm Hdd) as [y Ey].
  destruct (Number_year yyyy Hy) as [y' Ey'].
  destruct (zodiac_defined y') as [a Ea].
  unfold profileFromBirth, getSunSign, chineseZodiacFromYear.
  rewrite E, Ey.
  assert (Hs : slice0 4 (isoDate yyyy m d) = yyyy).
  { unfold isYearText in Hy. apply andb_true_iff in Hy. destruct Hy as [Hl _].
    apply Nat.eqb_eq in Hl. unfold slice0, isoDate.
    rewrite firstn_app, Hl, Nat.sub_diag, firstn_O, app_nil_r.
    rewrite <- Hl. apply firstn_all. }
  rewrite Hs, Ey', Ea. eexists. split; reflexivity.
Qed.

(** C6, as the code has it. For every date text of the form YYYY-MM-DD other
    than 0000-00-00, so for every text whose month or day is a calendar
    value, the life path lies in 1..9, 11, 22, 33, and it is the value that
    [profileFromBirth] stores in the profile; for 0000-00-00 it is 0. *)
Theorem lifePath_in_range (input : BirthInput.t) :
  isDateText (BirthInput.date input) = true ->
  BirthInput.date input <> str "0000-00-00" ->
  In (lifePathFromDate (BirthInput.date input)) LIFE_PATHS /\
  (exists p, profileFromBirth input = Some p /\
             AstroProfile.lifePath p = lifePathFromDate (BirthInput.date input) /\
             In (AstroProfile.lifePath p) LIFE_PATHS) /\
  lifePathFromDate (str "0000-00-00") = 0.
Proof.
  intros Hd Hz.
  assert (Hin : In (lifePathFromDate (BirthInput.date input)) LIFE_PATHS).
  { apply lifePath_range.
    destruct (dateText_digitSum _ Hd) as [Hb H0].
    destruct (Z.eq_dec (digitSum (BirthInput.date input)) 0) as [E|N]; [|lia].
    elim Hz. apply H0, E. }
  split; [exact Hin|]. split; [|reflexivity].
  destruct (profileFromBirth_dateText input Hd) as (p & Hp & Hl).
  exists p. rewrite Hl. auto.
Qed.

Lemma lifePath_in_range_witness :
  In (lifePathFromDate (str "1979-11-01")) LIFE_PATHS.
Proof.
  apply (lifePath_in_range
           (BirthInput.mk (str "Asha") (str "1979-11-01") (str "06:30")
                          (str "Pune") (str "+05:30"))).
  - reflexivity.
  - vm_compute. discriminate.
Defined.

(** C6 as stated fails: 0000-00-00 has a 4-digit year, a 2-digit month and a
    2-digit day, and its life path, 0, is outside 1..9, 11, 22, 33. *)
Lemma lifePath_zero_date :
  isDateText (str "0000-00-00") = true /\
  lifePathFromDate (str "0000-00-00") = 0 /\
  ~ In (lifePathFromDate (str "0000-00-00")) LIFE_PATHS /\
  option_map AstroProfile.lifePath
    (profileFromBirth (BirthInput.mk (str "Asha") (str "0000-00-00") (str "06:30")
                                     (str "Pune") (str "+05:30"))) = Some 0.
Proof.
  split; [reflexivity|]. split; [reflexivity|]. split; [|reflexivity].
  vm_compute. intuition discriminate.
Qed.

(** ** Lucky number *)

(** C4. On each of 1..9, 11, 22, 33 the lucky number is the entry of the
    table 3,6,9,2,1,8,7,5,4 at index (lifePath - 1) mod 9, by the one
    formula of the code, and it lies between 1 and 9. *)
Theorem luckyNumber_table (lifePath : Z) :
  In lifePath LIFE_PATHS ->
  luckyTable = [3; 6; 9; 2; 1; 8; 7; 5; 4] /\
  luckyNumber lifePath = index luckyTable (Z.rem (lifePath - 1) 9) /\
  luckyNumber lifePath = nth_error luckyTable (Z.to_nat ((lifePath - 1) mod 9)) /\
  exists v, luckyNumber lifePath = Some v /\ 1 <= v <= 9.
Proof.
  intros Hin. split; [reflexivity|]. split; [reflexivity|].
  unfold LIFE_PATHS in Hin. simpl in Hin.
  repeat (destruct Hin as [<-|Hin];
          [split; [reflexivity|eexists; split; [reflexivity|lia]]|]).
  contradiction.
Qed.

Lemma luckyNumber_table_witness :
  luckyNumber 22 = nth_error luckyTable (Z.to_nat ((22 - 1) mod 9)) /\
  luckyNumber 22 = Some 2.
Proof.
  destruct (luckyNumber_table 22) as (_ & _ & H & _).
  - unfold LIFE_PATHS. simpl. tauto.
  - split; [exact H|reflexivity].
Defined.

(** ** Seeded selector *)

Lemma toUint32_range (z : Z) : 0 <= toUint32 z < 2 ^ 32.
Proof. unfold toUint32. apply Z.mod_pos_bound. lia. Qed.

Lemma toUint32_toInt32 (z : Z) : toUint32 (toInt32 z) = toUint32 z.
Proof.
  unfold toUint32, toInt32.
  rewrite Zminus_mod, Zmod_mod, <- Zminus_mod.
  f_equal. lia.
Qed.

Lemma toUint32_lxor (a b : Z) :
  toUint32 (Z.lxor a b) = Z.lxor (toUint32 a) (toUint32 b).
Proof.
  unfold toUint32. apply Z.bits_inj'. intros i Hi.
  rewrite Z.lxor_spec, !Z.testbit_mod_pow2, Z.lxor_spec by lia.
  destruct (i <? 32); reflexivity.
Qed.

Lemma toUint32_mul (a b : Z) :
  toUint32 (a * b) = (toUint32 a * toUint32 b) mod 2 ^ 32.
Proof. unfold toUint32. apply Zmult_mod. Qed.

Lemma toUint32_hashStep (h c : Z) :
  0 <= c < 65536 ->
  toUint32 (hashStep h c) = (Z.lxor (toUint32 h) c * 16777619) mod 2 ^ 32.
Proof.
  intros Hc. unfold hashStep, imul, xor32.
  rewrite toUint32_toInt32, toUint32_mul, !toUint32_toInt32, toUint32_lxor,
    !toUint32_toInt32.
  replace (toUint32 c) with c by (unfold toUint32; rewrite Z.mod_small; lia).
  reflexivity.
Qed.

Lemma hash32_fnv1a32_from (s : JSString) (h : Z) :
  CodeUnits s ->
  toUint32 (fold_left hashStep s h)
  = fold_left (fun h c => (Z.lxor h c * 16777619) mod 2 ^ 32) s (toUint32 h).
Proof.
  intros Hs. revert h. induction Hs as [|c s Hc _ IH]; intros h; simpl.
  - reflexivity.
  - rewrite IH, toUint32_hashStep by exact Hc. reflexivity.
Qed.

Lemma seedFrom_floor (s : JSString) (n : Z) :
  Qfloor (seedFrom s * inject_Z n) = (toUint32 (hash32 s) * n) / 2 ^ 32.
Proof.
  unfold seedFrom, Qfloor, Qdiv, Qmult, Qinv, inject_Z. simpl Qnum. simpl Qden.
  f_equal. lia.
Qed.

Lemma seedFrom_unit (s : JSString) : (0 <= seedFrom s)%Q /\ (seedFrom s < 1)%Q.
Proof.
  pose proof (toUint32_range (hash32 s)) as Hu.
  unfold seedFrom, Qle, Qlt, Qdiv, Qmult, Qinv, inject_Z. simpl Qnum. simpl Qden.
  change (2 ^ 32) with 4294967296 in Hu. lia.
Qed.

Lemma dailyIndex_range (name isoDate : JSString) : 0 <= dailyIndex name isoDate < 7.
Proof.
  pose proof (toUint32_range (hash32 (name ++ isoDate))) as Hu.
  unfold dailyIndex. rewrite seedFrom_floor.
  change (Z.of_nat (List.length DAILY_AFFIRM)) with 7.
  split.
  - apply Z.div_pos; lia.
  - apply Z.div_lt_upper_bound; lia.
Qed.

(** C5. The daily message hashes name+date with the 32-bit FNV-1a hash,
    divides the unsigned 32-bit result by 2^32, which gives a value in
    [0,1), and indexes the list of seven affirmations with the floor of
    seven times that value: the index is in bounds and the message is an
    element of the list. Equal arguments give the equal message. *)
Theorem dailyMessage_in_list (name isoDate : JSString) :
  let u := toUint32 (hash32 (name ++ isoDate)) in
  let seed := seedFrom (name ++ isoDate) in
  (CodeUnits (name ++ isoDate) -> u = fnv1a32 (name ++ isoDate)) /\
  0 <= u < 2 ^ 32 /\
  (seed == inject_Z u / inject_Z (2 ^ 32))%Q /\
  (0 <= seed)%Q /\ (seed < 1)%Q /\
  List.length DAILY_AFFIRM = 7%nat /\
  dailyIndex name isoDate = Qfloor (seed * 7) /\
  0 <= dailyIndex name isoDate < 7 /\
  (exists msg, dailyMessage name isoDate = Some msg /\
               nth_error DAILY_AFFIRM (Z.to_nat (dailyIndex name isoDate)) = Some msg /\
               In msg DAILY_AFFIRM) /\
  (forall name' isoDate', name' = name -> isoDate' = isoDate ->
                          dailyMessage name' isoDate' = dailyMessage name isoDate).
Proof.
  intros u seed.
  pose proof (dailyIndex_range name isoDate) as Hi.
  split; [|split; [|split; [|split; [|split; [|split; [|split; [|split; [|split]]]]]]]].
  - intros Hs. unfold u, hash32. rewrite hash32_fnv1a32_from by exact Hs. reflexivity.
  - apply toUint32_range.
  - reflexivity.
  - apply seedFrom_unit.
  - apply seedFrom_unit.
  - reflexivity.
  - reflexivity.
  - exact Hi.
  - unfold dailyMessage, index.
    destruct (dailyIndex name isoDate <? 0) eqn:E; [apply Z.ltb_lt in E; lia|].
    destruct (nth_error DAILY_AFFIRM (Z.to_nat (dailyIndex name isoDate))) as [msg|] eqn:En.
    + exists msg. repeat split. apply nth_error_In in En. exact En.
    + apply nth_error_None in En. change (List.length DAILY_AFFIRM) with 7%nat in En. lia.
  - intros name' isoDate' -> ->. reflexivity.
Qed.

Lemma dailyMessage_in_list_witness :
  toUint32 (hash32 (str "Asha" ++ str "2024-02-29")) = fnv1a32 (str "Asha" ++ str "2024-02-29") /\
  dailyMessage (str "Asha") (str "2024-02-29") = nth_error DAILY_AFFIRM 3.
Proof.
  split.
  - apply (dailyMessage_in_list (str "Asha") (str "2024-02-29")).
    unfold CodeUnits, str. simpl. repeat (apply Forall_cons; [lia|]). apply Forall_nil.
  - vm_compute. reflexivity.
Defined.

(** ** Question router *)

Lemma includes_app_r (a b k : JSString) :
  includes b k = true -> includes (a ++ b) k = true.
Proof.
  intros H. induction a as [|c a IH]; [exact H|].
  cbn [app includes]. rewrite IH. apply orb_true_r.
Qed.

Lemma find_existsb_false {A : Type} (f : A -> bool) (l : list A) :
  existsb f l = false -> find f l = None.
Proof.
  induction l as [|x l IH]; simpl; [reflexivity|].
  destruct (f x); [discriminate|]. exact IH.
Qed.

Lemma qaFallback_shape (toLowerCase : JSString -> JSString)
      (question : JSString) (profile : AstroProfile.t) :
  exists text, In text ANSWERS /\
               qaFallback toLowerCase question profile = base profile ++ text.
Proof.
  unfold qaFallback, ANSWERS.
  destruct (find _ KEYWORDS) as [k|].
  - repeat match goal with
           | |- context [if ?b then _ else _] => destruct b
           end.
    + exists (careerText (AstroProfile.element profile)).
      split; [|reflexivity]. destruct (AstroProfile.element profile); simpl; tauto.
    + exists (studyText (AstroProfile.modality profile)).
      split; [|reflexivity]. destruct (AstroProfile.modality profile); simpl; tauto.
    + exists loveText. split; [simpl; tauto|reflexivity].
    + exists healthText. split; [simpl; tauto|reflexivity].
    + exists moneyText. split; [simpl; tauto|reflexivity].
    + exists clarifyText. split; [simpl; tauto|reflexivity].
  - exists clarifyText. split; [simpl; tauto|reflexivity].
Qed.

Lemma ANSWERS_nonempty (text : JSString) : In text ANSWERS -> text <> [].
Proof.
  unfold ANSWERS. simpl.
  intros H. repeat (destruct H as [<-|H]; [discriminate|]). contradiction.
Qed.

(** C7. With the question "How is my career?" and a profile whose element
    is Fire the answer contains "act boldly"; when the lower-cased question
    contains none of the topic keywords the answer is the default one,
    [base] followed by the clarify-intention text. *)
Theorem qaFallback_routes (toLowerCase : JSString -> JSString)
        (question : JSString) (profile : AstroProfile.t) :
  (toLowerCase (str "How is my career?") = str "how is my career?" ->
   AstroProfile.element profile = Fire ->
   includes (qaFallback toLowerCase (str "How is my career?") profile)
            (str "act boldly") = true) /\
  (existsb (fun k => includes (toLowerCase question) k) KEYWORDS = false ->
   qaFallback toLowerCase question profile = base profile ++ clarifyText /\
   includes (qaFallback toLowerCase question profile) (str "clarify intention") = true).
Proof.
  split.
  - intros Hlow Hfire. unfold qaFallback. rewrite Hlow, Hfire.
    change (find (fun k => includes (str "how is my career?") k) KEYWORDS)
      with (Some (str "career")).
    change (isCase (str "career") [str "career"; str "job"; str "work"; str "internship"])
      with true.
    cbv iota beta. apply includes_app_r. reflexivity.
  - intros Hnone. unfold qaFallback.
    rewrite (find_existsb_false _ _ Hnone).
    split; [reflexivity|]. apply includes_app_r. reflexivity.
Qed.

Lemma qaFallback_routes_witness :
  let fire := AstroProfile.mk (str "Asha") (str "Aries") Fire Cardinal 7
                              (str "Horse") (str "#ef4444") (Some 7) [] in
  includes (qaFallback asciiLowerCase (str "How is my career?") fire)
           (str "act boldly") = true /\
  qaFallback asciiLowerCase (str "What colour suits me?") fire
  = base fire ++ clarifyText.
Proof.
  intros fire. split.
  - apply (qaFallback_routes asciiLowerCase (str "How is my career?") fire);
      reflexivity.
  - apply (qaFallback_routes asciiLowerCase (str "What colour suits me?") fire).
    reflexivity.
Defined.

(** C8. [qaFallback] is total: for every question and every profile it
    returns a text, [base] followed by one of the answer texts, and that
    text is not empty. *)
Theorem qaFallback_nonempty (toLowerCase : JSString -> JSString)
        (question : JSString) (profile : AstroProfile.t) :
  (exists text, In text ANSWERS /\
                qaFallback toLowerCase question profile = base profile ++ text) /\
  qaFallback toLowerCase question profile <> [] /\
  (0 < List.length (qaFallback toLowerCase question profile))%nat.
Proof.
  destruct (qaFallback_shape toLowerCase question profile) as (text & Hin & E).
  pose proof (ANSWERS_nonempty text Hin) as Hne.
  split; [eauto|]. rewrite E. split.
  - intros Happ. apply app_eq_nil in Happ. tauto.
  - rewrite length_app. destruct text; [congruence|]. simpl. lia.
Qed.

(** ** Profile composer *)

(** C10. The profile depends on the name and the date only: two inputs
    with the same name and date give the same profile, summary included,
    whatever their time, place and time-zone offset. *)
Theorem profileFromBirth_name_date_only (input1 input2 : BirthInput.t) :
  BirthInput.name input1 = BirthInput.name input2 ->
  BirthInput.date input1 = BirthInput.date input2 ->
  profileFromBirth input1 = profileFromBirth input2.
Proof.
  intros Hn Hd. unfold profileFromBirth. rewrite Hn, Hd. reflexivity.
Qed.

Lemma profileFromBirth_name_date_only_witness :
  profileFromBirth (BirthInput.mk (str "Asha") (str "1990-03-21") (str "06:30")
                                  (str "Pune") (str "+05:30"))
  = profileFromBirth (BirthInput.mk (str "Asha") (str "1990-03-21") (str "23:59")
                                    (str "Oslo") (str "-08:00")).
Proof.
  apply profileFromBirth_name_date_only; reflexivity.
Defined.

(** ** Sign lookup on any pair of integers *)

Lemma matches_outside_year (m d sm sd em ed : Z) (name : JSString)
      (element : Element) (modality : Modality) :
  m < 1 \/ 12 < m -> 1 <= sm <= 12 -> 1 <= em <= 12 ->
  matches m d (name, (sm, sd), (em, ed), element, modality) = (em <? sm).
Proof.
  intros Hm Hs He. unfold matches.
  destruct (Z.ltb_spec sm m), (Z.eqb_spec m sm), (Z.ltb_spec m em),
    (Z.eqb_spec m em), (Z.leb_spec sm em), (Z.ltb_spec em sm);
    cbn [andb orb]; try reflexivity; lia.
Qed.

Lemma sign_outside_year (m d : Z) :
  m < 1 \/ 12 < m ->
  filter (matches m d) SIGN_TABLE = [(str "Capricorn", (12,22), (1,19), Earth, Cardinal)] /\
  signOf m d = SunSign.mk (str "Capricorn") Earth Cardinal.
Proof.
  intros Hm. unfold signOf, SIGN_TABLE.
  generalize (str "Capricorn"), (str "Aquarius"), (str "Pisces"), (str "Aries"),
    (str "Taurus"), (str "Gemini"), (str "Cancer"), (str "Leo"), (str "Virgo"),
    (str "Libra"), (str "Scorpio"), (str "Sagittarius").
  intros n1 n2 n3 n4 n5 n6 n7 n8 n9 n10 n11 n12. cbn [filter find].
  rewrite !(matches_outside_year m d _ _ _ _ _ _ _ Hm) by lia.
  split; reflexivity.
Qed.

Lemma recordSign_injective (r r' : SignRecord) :
  In r SIGN_TABLE -> In r' SIGN_TABLE -> recordSign r = recordSign r' -> r = r'.
Proof.
  unfold SIGN_TABLE. cbn [In]. intros Hr Hr' E.
  repeat (destruct Hr as [<-|Hr]; [|]); try contradiction;
    repeat (destruct Hr' as [<-|Hr']; [|]); try contradiction;
    first [reflexivity | vm_compute in E; discriminate E].
Qed.

Lemma sign_loop_total (m d : Z) :
  exists r, In r SIGN_TABLE /\
            filter (matches m d) SIGN_TABLE = [r] /\
            find (matches m d) SIGN_TABLE = Some r /\
            signOf m d = recordSign r.
Proof.
  assert (H : exists r, filter (matches m d) SIGN_TABLE = [r] /\ signOf m d = recordSign r).
  { destruct (Z_lt_le_dec m 1) as [Hlo|Hlo].
    - destruct (sign_outside_year m d) as [Hf Hs]; [lia|]. eauto.
    - destruct (Z_lt_le_dec 12 m) as [Hhi|Hhi].
      + destruct (sign_outside_year m d) as [Hf Hs]; [lia|]. eauto.
      + apply sign_tiling. lia. }
  destruct H as (r & Hf & Hs). exists r.
  assert (Hin : In r (filter (matches m d) SIGN_TABLE)) by (rewrite Hf; left; reflexivity).
  apply filter_In in Hin. destruct Hin as [Hin Hm].
  repeat split; try assumption.
  destruct (find (matches m d) SIGN_TABLE) as [r'|] eqn:Ef.
  - f_equal. pose proof (find_some _ _ Ef) as [Hin' Hm'].
    assert (Hin2 : In r' (filter (matches m d) SIGN_TABLE)) by (apply filter_In; auto).
    rewrite Hf in Hin2. destruct Hin2 as [->|[]]. reflexivity.
  - pose proof (find_none _ _ Ef r Hin). congruence.
Qed.

(** X1. Whatever integers stand for the month and the day, the loop of
    [getSunSign] finds a record, so the [return] after the loop is never
    reached on numbers, and no second record of the table passes the test. *)
Theorem getSunSign_loop_always_returns (m d : Z) :
  (exists r, In r SIGN_TABLE /\
             find (matches m d) SIGN_TABLE = Some r /\
             signOf m d = recordSign r) /\
  (forall r r', In r SIGN_TABLE -> In r' SIGN_TABLE ->
                matches m d r = true -> matches m d r' = true -> r = r').
Proof.
  destruct (sign_loop_total m d) as (r0 & Hin & Hf & Hfind & Hs).
  split; [exists r0; auto|].
  intros r r' Hr Hr' Hm Hm'.
  assert (H1 : In r (filter (matches m d) SIGN_TABLE)) by (apply filter_In; auto).
  assert (H2 : In r' (filter (matches m d) SIGN_TABLE)) by (apply filter_In; auto).
  rewrite Hf in H1, H2. destruct H1 as [<-|[]]. destruct H2 as [<-|[]]. reflexivity.
Qed.

(** X2. [getSunSign] answers with a sign exactly on the dates of that sign's
    interval: for a record of the table, the lookup returns its sign,
    element and modality if and only if the month and day pass its test. *)
Theorem getSunSign_iff_interval (m d : Z) (r : SignRecord) :
  In r SIGN_TABLE ->
  (signOf m d = recordSign r <-> matches m d r = true).
Proof.
  intros Hr.
  destruct (sign_loop_total m d) as (r0 & Hin0 & Hf & _ & Hs).
  split.
  - intros E. rewrite Hs in E.
    apply (recordSign_injective r0 r Hin0 Hr) in E. subst r0.
    assert (Hin : In r (filter (matches m d) SIGN_TABLE)) by (rewrite Hf; left; reflexivity).
    apply filter_In in Hin. tauto.
  - intros Hm.
    assert (Hin : In r (filter (matches m d) SIGN_TABLE)) by (apply filter_In; auto).
    rewrite Hf in Hin. destruct Hin as [->|[]]. exact Hs.
Qed.

Lemma getSunSign_iff_interval_witness :
  signOf 7 23 = recordSign (str "Leo", (7,23), (8,22), Fire, Fixed) <->
  matches 7 23 (str "Leo", (7,23), (8,22), Fire, Fixed) = true.
Proof.
  apply getSunSign_iff_interval. unfold SIGN_TABLE. cbn [In]. tauto.
Defined.

(** ** Reading the date text *)

Lemma decimalValue_fold (s : JSString) (acc : Z) :
  forallb isDigit s = true ->
  decimalValue acc s = Some (fold_left (fun a c => 10 * a + (c - 48)) s acc).
Proof.
  revert acc. induction s as [|c s IH]; intros acc; cbn [forallb decimalValue fold_left].
  - reflexivity.
  - rewrite andb_true_iff. intros [Hc Hs]. rewrite Hc. apply IH, Hs.
Qed.

Lemma Number_digits (s : JSString) :
  forallb isDigit s = true -> (List.length s <= 15)%nat ->
  Number s = Some (digitsValue s).
Proof.
  intros Hd Hl. destruct s as [|c rest]; [reflexivity|].
  assert (Hc : 48 <= c <= 57).
  { apply isDigit_bounds. cbn [forallb] in Hd. apply andb_true_iff in Hd. tauto. }
  unfold Number.
  replace (c =? 45) with false by (symmetry; apply Z.eqb_neq; lia).
  replace (c =? 43) with false by (symmetry; apply Z.eqb_neq; lia).
  cbn [andb]. apply Nat.leb_le in Hl. rewrite Hl.
  apply decimalValue_fold, Hd.
Qed.

Lemma digitsValue_bound (s : JSString) (acc : Z) :
  forallb isDigit s = true -> 0 <= acc ->
  0 <= fold_left (fun a c => 10 * a + (c - 48)) s acc
    < (acc + 1) * 10 ^ Z.of_nat (List.length s).
Proof.
  revert acc. induction s as [|c s IH]; intros acc Hd Hacc.
  - cbn [fold_left List.length]. change (10 ^ Z.of_nat 0) with 1. lia.
  - cbn [forallb] in Hd. apply andb_true_iff in Hd. destruct Hd as [Hc Hs].
    apply isDigit_bounds in Hc. cbn [fold_left].
    specialize (IH (10 * acc + (c - 48)) Hs ltac:(lia)).
    replace (Z.of_nat (List.length (c :: s))) with (Z.succ (Z.of_nat (List.length s)))
      by (cbn [List.length]; lia).
    rewrite Z.pow_succ_r by lia.
    assert (0 < 10 ^ Z.of_nat (List.length s)) by (apply Z.pow_pos_nonneg; lia).
    nia.
Qed.

Lemma dateText_fields (s : JSString) :
  isDateText s = true ->
  forallb isDigit (yearField s) = true /\ List.length (yearField s) = 4%nat /\
  forallb isDigit (monthField s) = true /\ List.length (monthField s) = 2%nat /\
  forallb isDigit (dayField s) = true /\ List.length (dayField s) = 2%nat /\
  s = yearField s ++ 45 :: (monthField s ++ 45 :: dayField s).
Proof.
  unfold isDateText.
  destruct s as [|y1 [|y2 [|y3 [|y4 [|h1 [|m1 [|m2 [|h2 [|d1 [|d2 [|x s]]]]]]]]]]];
    try discriminate.
  cbn [forallb]. rewrite !andb_true_iff, !Z.eqb_eq.
  intros [[(Hy1 & Hy2 & Hy3 & Hy4 & Hm1 & Hm2 & Hd1 & Hd2 & _) ->] ->].
  unfold yearField, monthField, dayField. cbn [firstn skipn forallb List.length].
  rewrite Hy1, Hy2, Hy3, Hy4, Hm1, Hm2, Hd1, Hd2. repeat split.
Qed.

Lemma toDateParts_fields (s : JSString) :
  isDateText s = true ->
  toDateParts s
  = Some (digitsValue (yearField s), digitsValue (monthField s), digitsValue (dayField s)).
Proof.
  intros Hs. destruct (dateText_fields s Hs) as (Hy & Ly & Hm & Lm & Hd & Ld & E).
  unfold toDateParts. rewrite E at 1.
  rewrite split_app_sep by (apply digits_no_dash, Hy).
  rewrite split_app_sep by (apply digits_no_dash, Hm).
  rewrite split_no_sep by (apply digits_no_dash, Hd).
  cbn [map]. rewrite !Number_digits by (assumption || lia). reflexivity.
Qed.

(** X3. On a text of the form YYYY-MM-DD, [toDateParts] reads the three
    numbers the digit groups write: a year in 0..9999, a month and a day in
    0..99, leading zeros dropped. *)
Theorem toDateParts_reads_fields (s : JSString) :
  isDateText s = true ->
  toDateParts s
  = Some (digitsValue (yearField s), digitsValue (monthField s), digitsValue (dayField s)) /\
  0 <= digitsValue (yearField s) <= 9999 /\
  0 <= digitsValue (monthField s) <= 99 /\
  0 <= digitsValue (dayField s) <= 99.
Proof.
  intros Hs. split; [apply toDateParts_fields, Hs|].
  destruct (dateText_fields s Hs) as (Hy & Ly & Hm & Lm & Hd & Ld & _).
  pose proof (digitsValue_bound (yearField s) 0 Hy ltac:(lia)) as By.
  pose proof (digitsValue_bound (monthField s) 0 Hm ltac:(lia)) as Bm.
  pose proof (digitsValue_bound (dayField s) 0 Hd ltac:(lia)) as Bd.
  rewrite Ly in By. rewrite Lm in Bm. rewrite Ld in Bd.
  change (10 ^ Z.of_nat 4) with 10000 in By.
  change (10 ^ Z.of_nat 2) with 100 in Bm, Bd.
  unfold digitsValue. lia.
Qed.

Lemma toDateParts_reads_fields_witness :
  toDateParts (str "2024-02-09") = Some (2024, 2, 9).
Proof.
  destruct (toDateParts_reads_fields (str "2024-02-09")) as [H _].
  - reflexivity.
  - exact H.
Defined.

(** X4. Every text the form lets through gets a sign, and that sign is a
    row of the sign table; when its month field is not a month (00, or 13
    to 99) the row is Capricorn, through the wrap-around test and not
    through the fallback. *)
Theorem getSunSign_dateText (s : JSString) :
  isDateText s = true ->
  getSunSign s = Some (signOf (digitsValue (monthField s)) (digitsValue (dayField s))) /\
  (exists r, In r SIGN_TABLE /\ getSunSign s = Some (recordSign r)) /\
  (digitsValue (monthField s) < 1 \/ 12 < digitsValue (monthField s) ->
   getSunSign s = Some (SunSign.mk (str "Capricorn") Earth Cardinal) /\
   find (matches (digitsValue (monthField s)) (digitsValue (dayField s))) SIGN_TABLE
   = Some (str "Capricorn", (12,22), (1,19), Earth, Cardinal)).
Proof.
  intros Hs. pose proof (toDateParts_fields s Hs) as Hp.
  assert (Hg : getSunSign s
               = Some (signOf (digitsValue (monthField s)) (digitsValue (dayField s)))).
  { unfold getSunSign. rewrite Hp. reflexivity. }
  split; [exact Hg|]. split.
  - destruct (sign_loop_total
                (digitsValue (monthField s)) (digitsValue (dayField s)))
      as (r & Hin & _ & _ & Hr).
    exists r. rewrite Hg, Hr. auto.
  - intros Hm.
    destruct (sign_outside_year _ (digitsValue (dayField s)) Hm) as [Hf Hc].
    rewrite Hg, Hc. split; [reflexivity|].
    destruct (sign_loop_total
                (digitsValue (monthField s)) (digitsValue (dayField s)))
      as (r & _ & Hf' & Hfind & _).
    rewrite Hfind. rewrite Hf in Hf'. injection Hf' as <-. reflexivity.
Qed.

Lemma getSunSign_dateText_witness :
  getSunSign (str "2024-13-45") = Some (SunSign.mk (str "Capricorn") Earth Cardinal).
Proof.
  destruct (getSunSign_dateText (str "2024-13-45")) as (_ & _ & H).
  - reflexivity.
  - apply H. right. vm_compute. reflexivity.
Defined.

(** ** Zodiac of a date text *)

(** X5. On a text of the form YYYY-MM-DD the animal is the entry of the
    animal list at index (year - 2008) mod 12, the year being the number its
    first four digits write; it is never [undefined], and month and day play
    no part. *)
Theorem chineseZodiac_dateText (s : JSString) :
  isDateText s = true ->
  chineseZodiacFromYear s
  = nth_error CHINESE_ANIMALS (Z.to_nat ((digitsValue (yearField s) - 2008) mod 12)) /\
  (exists a, chineseZodiacFromYear s = Some a /\ In a CHINESE_ANIMALS) /\
  (forall s', isDateText s' = true -> yearField s' = yearField s ->
              chineseZodiacFromYear s' = chineseZodiacFromYear s).
Proof.
  intros Hs.
  assert (Hn : forall t, isDateText t = true ->
                         Number (slice0 4 t) = Some (digitsValue (yearField t))).
  { intros t Ht. unfold isDateText in Ht.
    destruct t as [|y1 [|y2 [|y3 [|y4 [|h1 [|m1 [|m2 [|h2 [|d1 [|d2 [|x t]]]]]]]]]]];
      try discriminate.
    cbn [forallb] in Ht. rewrite !andb_true_iff in Ht.
    destruct Ht as [[(Hy1 & Hy2 & Hy3 & Hy4 & _) _] _].
    unfold slice0, yearField. cbn [firstn].
    apply Number_digits; [|cbn [List.length]; lia].
    cbn [forallb]. rewrite Hy1, Hy2, Hy3, Hy4. reflexivity. }
  assert (Hz : forall t, isDateText t = true ->
                         chineseZodiacFromYear t
                         = nth_error CHINESE_ANIMALS
                             (Z.to_nat ((digitsValue (yearField t) - 2008) mod 12))).
  { intros t Ht. unfold chineseZodiacFromYear. rewrite (Hn t Ht).
    pose proof (zodiacPos_range (digitsValue (yearField t))) as Hr.
    unfold index. rewrite <- zodiacPos_mod.
    destruct (zodiacPos (digitsValue (yearField t)) <? 0) eqn:E;
      [apply Z.ltb_lt in E; lia|reflexivity]. }
  split; [apply Hz, Hs|]. split.
  - unfold chineseZodiacFromYear. rewrite (Hn s Hs).
    destruct (zodiac_defined (digitsValue (yearField s))) as [a Ha].
    exists a. split; [exact Ha|]. unfold index in Ha.
    destruct (zodiacPos (digitsValue (yearField s)) <? 0); [discriminate|].
    apply nth_error_In in Ha. exact Ha.
  - intros s' Hs' Ey. rewrite (Hz s' Hs'), (Hz s Hs), Ey. reflexivity.
Qed.

Lemma chineseZodiac_dateText_witness :
  chineseZodiacFromYear (str "1987-10-05") = Some (str "Rabbit").
Proof.
  destruct (chineseZodiac_dateText (str "1987-10-05")) as (H & _).
  - reflexivity.
  - rewrite H. reflexivity.
Defined.

(** ** More on the digit reduction *)

Lemma reduceDigits_stop (n : Z) :
  n <= 9 \/ isMaster n = true -> reduceDigits n = n.
Proof.
  funelim (reduceDigits n); intros Hstop; try reflexivity.
  destruct Hstop as [Hle|Hm]; [lia|congruence].
Qed.

Lemma reduceDigits_stopped (n : Z) :
  reduceDigits n <= 9 \/ isMaster (reduceDigits n) = true.
Proof.
  pose proof (ResumsTo_stops n _ (reduceDigits_ResumsTo n)) as H.
  destruct H as [H|H]; [left; exact H|right; apply isMaster_spec; exact H].
Qed.

Lemma reduceDigits_le (n : Z) : reduceDigits n <= n.
Proof.
  funelim (reduceDigits n); try lia.
  pose proof (resum_decreases n). lia.
Qed.


Lemma digitsOf_sum_mod9 (n : Z) : sum (digitsOf n) mod 9 = n mod 9.
Proof.
  funelim (digitsOf n).
  - unfold sum. cbn [fold_left]. f_equal.
  - rewrite sum_snoc.
    match goal with IH : _ mod 9 = (n / 10) mod 9 |- _ =>
      rewrite Z.add_mod, IH, <- Z.add_mod by lia end.
    Z.to_euclidean_division_equations. lia.
Qed.

Lemma reduceDigits_mod9_step (k : Z) : reduceDigits k mod 9 = k mod 9.
Proof.
  funelim (reduceDigits k); try reflexivity.
  match goal with IH : reduceDigits (resum n) mod 9 = _ |- _ => rewrite IH end.
  rewrite resum_digits by lia. apply digitsOf_sum_mod9.
Qed.


Lemma below_73 (n : Z) : 0 <= n <= 72 -> In n (map Z.of_nat (seq 0 73)).
Proof.
  intros Hn. apply in_map_iff. exists (Z.to_nat n).
  split; [lia|]. apply in_seq. lia.
Qed.

Lemma masters_below_73 (n : Z) :
  0 <= n <= 72 ->
  (reduceDigits n = 22 <-> n = 22) /\
  (reduceDigits n = 33 <-> n = 33) /\
  (reduceDigits n = 11 <-> In n [11; 29; 38; 47; 56; 65]).
Proof.
  intros Hn.
  assert (Hall : forallb (fun k =>
                   Bool.eqb (reduceDigits k =? 22) (k =? 22)
                   && Bool.eqb (reduceDigits k =? 33) (k =? 33)
                   && Bool.eqb (reduceDigits k =? 11)
                               (existsb (Z.eqb k) [11; 29; 38; 47; 56; 65]))
                 (map Z.of_nat (seq 0 73)) = true) by (vm_compute; reflexivity).
  rewrite forallb_forall in Hall. specialize (Hall n (below_73 n Hn)).
  rewrite !andb_true_iff in Hall. destruct Hall as [[H22 H33] H11].
  apply eqb_prop in H22, H33, H11.
  split; [|split].
  - rewrite <- !Z.eqb_eq, H22. tauto.
  - rewrite <- !Z.eqb_eq, H33. tauto.
  - rewrite <- Z.eqb_eq, H11, existsb_exists. split.
    + intros (x & Hx & E). apply Z.eqb_eq in E. subst x. exact Hx.
    + intros Hin. exists n. split; [exact Hin|apply Z.eqb_refl].
Qed.

(** X8. On a text of the form YYYY-MM-DD the master numbers 22 and 33 come
    out only when the digits themselves add up to 22 or to 33, and 11 comes
    out exactly for the digit sums 11, 29, 38, 47, 56 and 65. *)
Theorem lifePath_master_numbers (s : JSString) :
  isDateText s = true ->
  (lifePathFromDate s = 22 <-> digitSum s = 22) /\
  (lifePathFromDate s = 33 <-> digitSum s = 33) /\
  (lifePathFromDate s = 11 <-> In (digitSum s) [11; 29; 38; 47; 56; 65]).
Proof.
  intros Hs. destruct (dateText_digitSum s Hs) as [Hb _].
  replace (lifePathFromDate s) with (reduceDigits (digitSum s)).
  - apply masters_below_73. exact Hb.
  - unfold lifePathFromDate. cbv zeta. rewrite digitSum_code. reflexivity.
Qed.

Lemma lifePath_master_numbers_witness :
  lifePathFromDate (str "1973-01-01") = 22 <-> digitSum (str "1973-01-01") = 22.
Proof.
  apply (lifePath_master_numbers (str "1973-01-01")). reflexivity.
Defined.

(** ** More on the lucky number *)

Lemma luckyNumber_mod (lifePath : Z) :
  1 <= lifePath ->
  luckyNumber lifePath = nth_error luckyTable (Z.to_nat ((lifePath - 1) mod 9)).
Proof.
  intros Hl. unfold luckyNumber, index. cbv zeta.
  change (Z.of_nat (List.length luckyTable)) with 9.
  rewrite Z.rem_mod_nonneg by lia.
  pose proof (Z.mod_pos_bound (lifePath - 1) 9 ltac:(lia)) as Hb.
  destruct ((lifePath - 1) mod 9 <? 0) eqn:E; [apply Z.ltb_lt in E; lia|reflexivity].
Qed.

Lemma residue_cases (r : Z) :
  0 <= r < 9 ->
  r = 0 \/ r = 1 \/ r = 2 \/ r = 3 \/ r = 4 \/ r = 5 \/ r = 6 \/ r = 7 \/ r = 8.
Proof. lia. Qed.

Lemma luckyNumber_from_1 (lifePath : Z) :
  1 <= lifePath -> exists v, luckyNumber lifePath = Some v /\ 1 <= v <= 9.
Proof.
  intros Hl. rewrite (luckyNumber_mod lifePath Hl).
  pose proof (Z.mod_pos_bound (lifePath - 1) 9 ltac:(lia)) as Hb.
  destruct (residue_cases _ Hb) as [E|[E|[E|[E|[E|[E|[E|[E|E]]]]]]]];
    rewrite E; eexists; (split; [reflexivity|lia]).
Qed.





(** ** What every profile satisfies *)

Lemma table_colors_traits (r : SignRecord) :
  In r SIGN_TABLE ->
  (exists c, lookup SIGN_COLORS (SunSign.sign (recordSign r)) = Some c /\
             In (SunSign.sign (recordSign r), c) SIGN_COLORS) /\
  (exists t1 t2 t3 t4,
      lookup SIGN_TRAITS (SunSign.sign (recordSign r)) = Some [t1; t2; t3; t4]).
Proof.
  unfold SIGN_TABLE. cbn [In]. intros Hr.
  repeat (destruct Hr as [<-|Hr];
          [split; [eexists; split; [reflexivity|unfold SIGN_COLORS; cbn [In]; tauto]
                  |do 4 eexists; reflexivity]|]).
  contradiction.
Qed.

Lemma reduceDigits_nonneg (n : Z) :
  0 <= n -> n = 0 /\ reduceDigits n = 0 \/ In (reduceDigits n) LIFE_PATHS.
Proof.
  intros Hn. destruct (Z.eq_dec n 0) as [->|Hz].
  - left. split; reflexivity.
  - right. apply reduceDigits_positive. lia.
Qed.

Lemma digitSum_nonneg (s : JSString) : 0 <= digitSum s.
Proof.
  induction s as [|c s IH]; cbn [digitSum]; [lia|].
  destruct (isDigit c) eqn:E; [|exact IH].
  apply isDigit_bounds in E. lia.
Qed.



(** X12. The summary of a profile agrees with its fields: it is the name,
    the sign, the element and modality, three traits, the life path in
    decimal and the animal, in that order; the traits are the first three
    of the four the trait table has for the sign, the fourth never shows. *)
Theorem profileFromBirth_summary (input : BirthInput.t) (p : AstroProfile.t) :
  profileFromBirth input = Some p ->
  exists t1 t2 t3 t4,
    lookup SIGN_TRAITS (AstroProfile.sunSign p) = Some [t1; t2; t3; t4] /\
    AstroProfile.summary p
    = AstroProfile.name p ++ str ", you're a " ++ AstroProfile.sunSign p
      ++ str " (" ++ elementName (AstroProfile.element p) ++ str ", "
      ++ modalityName (AstroProfile.modality p) ++ str "). Traits: "
      ++ t1 ++ str ", " ++ t2 ++ str ", " ++ t3 ++ str ". Life Path "
      ++ toString (AstroProfile.lifePath p) ++ str ". Chinese Zodiac: "
      ++ AstroProfile.chineseAnimal p ++ str ".".
Proof.
  unfold profileFromBirth.
  destruct (getSunSign (BirthInput.date input)) as [sun|] eqn:Es; [|discriminate].
  destruct (chineseZodiacFromYear (BirthInput.date input)) as [chinese|];
    [|discriminate].
  intros E. injection E as <-. cbn.
  unfold getSunSign in Es.
  destruct (toDateParts (BirthInput.date input)) as [[[y m] d]|]; [|discriminate].
  injection Es as <-.
  destruct (sign_loop_total m d) as (r & Hin & _ & _ & Hr).
  destruct (table_colors_traits r Hin) as [_ (t1 & t2 & t3 & t4 & Ht)].
  rewrite Hr in *. exists t1, t2, t3, t4. split; [exact Ht|].
  rewrite Ht. cbn [firstn join]. rewrite <- !app_assoc. reflexivity.
Qed.

Lemma profileFromBirth_summary_witness :
  exists p,
    profileFromBirth (BirthInput.mk (str "Asha") (str "1990-03-21") (str "06:30")
                                    (str "Pune") (str "+05:30")) = Some p /\
    AstroProfile.summary p
    = str "Asha, you're a Aries (Fire, Cardinal). Traits: bold, energetic, decisive. Life Path 7. Chinese Zodiac: Horse.".
Proof.
  destruct (profileFromBirth _) as [p|] eqn:E.
  - exists p. split; [reflexivity|].
    destruct (profileFromBirth_summary _ p E) as (t1 & t2 & t3 & t4 & Ht & Hs).
    vm_compute in E. injection E as <-. vm_compute. reflexivity.
  - vm_compute in E. discriminate E.
Defined.

(** ** The generate button *)

Lemma join_nonempty (sep x : JSString) (xs : list JSString) :
  x <> [] -> join sep (x :: xs) <> [].
Proof.
  intros Hx. cbn [join]. destruct xs as [|y ys]; [exact Hx|].
  intros E. apply app_eq_nil in E. tauto.
Qed.

(** X13. [handleGenerate] either builds a profile or shows an alert, never
    both and never neither. When the five fields pass their checks the new
    state holds the profile of the input and an empty response, and nothing
    is alerted; when a check fails the state is left as it was and the
    alert is not empty: it joins one message for each failing field. *)
Theorem handleGenerate_cases (input : BirthInput.t) (st : AppState.t) :
  (birthSchemaIssues input = [] <->
   min1 (BirthInput.name input) && isDateText (BirthInput.date input)
   && isTimeText (BirthInput.time input) && min1 (BirthInput.place input)
   && isOffsetText (BirthInput.tzOffset input) = true) /\
  (birthSchemaIssues input = [] ->
   exists p, profileFromBirth input = Some p /\
             handleGenerate input st = Some (AppState.mk (Some p) [], None)) /\
  (birthSchemaIssues input <> [] ->
   exists text, handleGenerate input st = Some (st, Some text) /\
                text = join [10] (birthSchemaIssues input) /\ text <> [] /\
                (1 <= List.length (birthSchemaIssues input) <= 5)%nat).
Proof.
  split; [|split].
  - unfold birthSchemaIssues.
    destruct (min1 (BirthInput.name input)), (isDateText (BirthInput.date input)),
      (isTimeText (BirthInput.time input)), (min1 (BirthInput.place input)),
      (isOffsetText (BirthInput.tzOffset input));
      cbn [app andb]; split; intros H; (reflexivity || discriminate H).
  - intros Hok.
    assert (Hd : isDateText (BirthInput.date input) = true).
    { unfold birthSchemaIssues in Hok.
      destruct (isDateText (BirthInput.date input)); [reflexivity|].
      destruct (min1 (BirthInput.name input)); discriminate Hok. }
    destruct (profileFromBirth_dateText input Hd) as (p & Hp & _).
    exists p. split; [exact Hp|]. unfold handleGenerate. rewrite Hok, Hp. reflexivity.
  - intros Hbad. exists (join [10] (birthSchemaIssues input)).
    split; [|split; [reflexivity|split]].
    + unfold handleGenerate. destruct (birthSchemaIssues input); [congruence|reflexivity].
    + unfold birthSchemaIssues in *.
      destruct (min1 (BirthInput.name input)), (isDateText (BirthInput.date input)),
        (isTimeText (BirthInput.time input)), (min1 (BirthInput.place input)),
        (isOffsetText (BirthInput.tzOffset input));
        cbn [app] in *; try congruence; apply join_nonempty; discriminate.
    + unfold birthSchemaIssues in *.
      destruct (min1 (BirthInput.name input)), (isDateText (BirthInput.date input)),
        (isTimeText (BirthInput.time input)), (min1 (BirthInput.place input)),
        (isOffsetText (BirthInput.tzOffset input));
        cbn [app List.length] in *; try congruence; lia.
Qed.

Lemma handleGenerate_cases_witness :
  exists text,
    handleGenerate (BirthInput.mk [] (str "21/03/1990") (str "06:30") (str "Pune")
                                  (str "+05:30"))
                   (AppState.mk None (str "old answer"))
    = Some (AppState.mk None (str "old answer"), Some text) /\
    text = str "Your name is required" ++ [10] ++ str "Use YYYY-MM-DD".
Proof.
  destruct (handleGenerate_cases
              (BirthInput.mk [] (str "21/03/1990") (str "06:30") (str "Pune")
                             (str "+05:30"))
              (AppState.mk None (str "old answer"))) as (_ & _ & H).
  destruct H as (text & Hh & Ht & _).
  - vm_compute. discriminate.
  - exists text. split; [exact Hh|]. rewrite Ht. reflexivity.
Defined.

(** ** [classNames] *)

Lemma join_all_nonempty (sep : JSString) (xs : list JSString) :
  Forall (fun x => x <> []) xs -> (join sep xs = [] <-> xs = []).
Proof.
  intros Hall. split; [|intros ->; reflexivity].
  destruct Hall as [|x xs Hx _]; [reflexivity|].
  intros E. exfalso. exact (join_nonempty sep x xs Hx E).
Qed.

Lemma join_app (sep : JSString) (xs ys : list JSString) :
  xs <> [] -> ys <> [] ->
  join sep (xs ++ ys) = join sep xs ++ sep ++ join sep ys.
Proof.
  intros Hx Hy. induction xs as [|x xs IH]; [congruence|].
  destruct xs as [|x' xs].
  - cbn [app join]. destruct ys; [congruence|reflexivity].
  - change ((x :: x' :: xs) ++ ys) with (x :: ((x' :: xs) ++ ys)).
    cbn [join app] in *. rewrite IH by discriminate.
    rewrite <- !app_assoc. reflexivity.
Qed.

Lemma kept_strings_nonempty (xs : list (option JSString)) :
  Forall (fun x => x <> []) (strings (filter truthy xs)).
Proof.
  induction xs as [|x xs IH]; [constructor|].
  cbn [filter]. destruct x as [[|c s]|]; cbn [truthy]; try exact IH.
  unfold strings. cbn [flat_map app]. constructor; [discriminate|exact IH].
Qed.

Lemma kept_strings_app (xs ys : list (option JSString)) :
  strings (filter truthy (xs ++ ys))
  = strings (filter truthy xs) ++ strings (filter truthy ys).
Proof. unfold strings. rewrite filter_app, flat_map_app. reflexivity. Qed.

(** X14. [classNames] drops [false], [null], [undefined] and the empty
    string and joins the rest with single spaces: it is empty exactly when
    nothing is kept, and nesting changes nothing, the class string of two
    argument lists put together is the class string of their two class
    strings. *)
Theorem classNames_flattens (xs ys : list (option JSString)) :
  (classNames xs = [] <-> Forall (fun x => truthy x = false) xs) /\
  classNames (xs ++ ys) = classNames [Some (classNames xs); Some (classNames ys)] /\
  classNames (None :: xs) = classNames xs /\
  classNames (Some [] :: xs) = classNames xs.
Proof.
  split; [|split; [|split; reflexivity]].
  - unfold classNames. rewrite (join_all_nonempty _ _ (kept_strings_nonempty xs)).
    induction xs as [|x xs IH].
    + split; [constructor|reflexivity].
    + cbn [filter]. destruct (truthy x) eqn:E.
      * split; [|intros H; inversion H; congruence].
        destruct x as [[|c s]|]; try discriminate E. discriminate.
      * rewrite IH. split; [intros H; constructor; assumption|].
        intros H. inversion H. assumption.
  - unfold classNames at 1. rewrite kept_strings_app.
    pose proof (join_all_nonempty (str " ") _ (kept_strings_nonempty xs)) as Hx.
    pose proof (join_all_nonempty (str " ") _ (kept_strings_nonempty ys)) as Hy.
    fold (classNames xs) in Hx. fold (classNames ys) in Hy.
    unfold classNames at 1. cbn [filter].
    assert (Ex : classNames xs = join (str " ") (strings (filter truthy xs)))
      by reflexivity.
    assert (Ey : classNames ys = join (str " ") (strings (filter truthy ys)))
      by reflexivity.
    destruct (strings (filter truthy xs)) as [|a A].
    + assert (E : classNames xs = []) by (apply Hx; reflexivity).
      rewrite E. cbn [truthy app].
      destruct (strings (filter truthy ys)) as [|b B].
      * assert (F : classNames ys = []) by (apply Hy; reflexivity).
        rewrite F. reflexivity.
      * assert (F : classNames ys <> []) by (intros F; apply Hy in F; discriminate F).
        rewrite <- Ey. destruct (classNames ys) as [|c s]; [congruence|].
        reflexivity.
    + assert (E : classNames xs <> []) by (intros E; apply Hx in E; discriminate E).
      destruct (strings (filter truthy ys)) as [|b B].
      * assert (F : classNames ys = []) by (apply Hy; reflexivity).
        rewrite F, app_nil_r, <- Ex.
        destruct (classNames xs) as [|c s]; [congruence|]. reflexivity.
      * assert (F : classNames ys <> []) by (intros F; apply Hy in F; discriminate F).
        rewrite join_app by discriminate. rewrite <- Ex, <- Ey.
        destruct (classNames xs) as [|c s]; [congruence|].
        destruct (classNames ys) as [|c' s']; [congruence|].
        reflexivity.
Qed.

(** ** The router's decision table *)

(** X15. The topics have a fixed priority, whatever the order of the words
    in the question: a career word anywhere in the lower-cased question
    gives the career answer of the profile's element; failing that a study
    word gives the study answer of its modality; then love, health and
    money; with none of the thirteen words the answer is the default. *)
Theorem qaFallback_priority (toLowerCase : JSString -> JSString)
        (question : JSString) (profile : AstroProfile.t) :
  let has := existsb (fun k => includes (toLowerCase question) k) in
  qaFallback toLowerCase question profile
  = base profile ++
    (if has CAREER_KEYS then careerText (AstroProfile.element profile)
     else if has STUDY_KEYS then studyText (AstroProfile.modality profile)
     else if has LOVE_KEYS then loveText
     else if has HEALTH_KEYS then healthText
     else if has MONEY_KEYS then moneyText
     else clarifyText).
Proof.
  intros has. subst has. unfold qaFallback. cbv zeta.
  unfold KEYWORDS, CAREER_KEYS, STUDY_KEYS, LOVE_KEYS, HEALTH_KEYS, MONEY_KEYS.
  cbn [find existsb].
  generalize (toLowerCase question) as q. intros q.
  repeat match goal with
         | |- context [includes q ?k] => destruct (includes q k); [reflexivity|]
         end.
  reflexivity.
Qed.

Lemma startsWith_app (k b : JSString) : startsWith k (k ++ b) = true.
Proof.
  induction k as [|c k IH]; [reflexivity|].
  cbn [app startsWith]. rewrite Z.eqb_refl, IH. reflexivity.
Qed.

Lemma includes_middle (a k b : JSString) : includes (a ++ k ++ b) k = true.
Proof.
  apply includes_app_r. destruct k as [|c k]; [destruct b; reflexivity|].
  cbn [app includes].
  change (c :: k ++ b) with ((c :: k) ++ b). rewrite startsWith_app. reflexivity.
Qed.

(** X16. An answer of [qaFallback] names the profile's sun sign, its element
    and its life path, and it reads nothing else of the profile than these
    and the modality: two profiles that agree on the four get the same
    answer to the same question. *)
Theorem qaFallback_reads_four_fields (toLowerCase : JSString -> JSString)
        (question : JSString) (p1 p2 : AstroProfile.t) :
  includes (qaFallback toLowerCase question p1) (AstroProfile.sunSign p1) = true /\
  includes (qaFallback toLowerCase question p1)
           (elementName (AstroProfile.element p1)) = true /\
  includes (qaFallback toLowerCase question p1)
           (toString (AstroProfile.lifePath p1)) = true /\
  (AstroProfile.sunSign p1 = AstroProfile.sunSign p2 ->
   AstroProfile.element p1 = AstroProfile.element p2 ->
   AstroProfile.modality p1 = AstroProfile.modality p2 ->
   AstroProfile.lifePath p1 = AstroProfile.lifePath p2 ->
   qaFallback toLowerCase question p1 = qaFallback toLowerCase question p2).
Proof.
  assert (Hsame : AstroProfile.sunSign p1 = AstroProfile.sunSign p2 ->
                  AstroProfile.element p1 = AstroProfile.element p2 ->
                  AstroProfile.modality p1 = AstroProfile.modality p2 ->
                  AstroProfile.lifePath p1 = AstroProfile.lifePath p2 ->
                  qaFallback toLowerCase question p1
                  = qaFallback toLowerCase question p2).
  { intros Hs He Hm Hl. unfold qaFallback, base. rewrite Hs, He, Hm, Hl.
    reflexivity. }
  destruct (qaFallback_shape toLowerCase question p1) as (text & _ & E).
  split; [|split; [|split; [|exact Hsame]]];
    rewrite E; unfold base; rewrite <- !app_assoc.
  - apply includes_middle.
  - rewrite (app_assoc (str "As a ")), (app_assoc _ (str " (")).
    apply includes_middle.
  - rewrite (app_assoc (str "As a ")), (app_assoc _ (str " (")),
      (app_assoc _ (elementName _)), (app_assoc _ (str "), Life Path ")).
    apply includes_middle.
Qed.

Lemma qaFallback_reads_four_fields_witness :
  qaFallback asciiLowerCase (str "Will I pass my exam?")
    (AstroProfile.mk (str "Asha") (str "Aries") Fire Cardinal 7
                     (str "Horse") (str "#ef4444") (Some 7) (str "first"))
  = qaFallback asciiLowerCase (str "Will I pass my exam?")
      (AstroProfile.mk (str "Ravi") (str "Aries") Fire Cardinal 7
                       (str "Tiger") (str "#000000") None (str "second")).
Proof.
  apply qaFallback_reads_four_fields; reflexivity.
Defined.

(** ** The seed as a fingerprint of the text *)

(** X17. Each of the seven affirmations is the daily message of some name
    and some date text: no entry of the list is out of reach of the index
    computation. *)
Theorem dailyMessage_reaches_all (msg : JSString) :
  In msg DAILY_AFFIRM ->
  exists name date,
    name <> [] /\ isDateText date = true /\ dailyMessage name date = Some msg.
Proof.
  unfold DAILY_AFFIRM. cbn [In].
  intros [<-|[<-|[<-|[<-|[<-|[<-|[<-|[]]]]]]]].
  - exists (str "E"), (str "2024-02-29"). split; [discriminate|].
    split; [reflexivity|vm_compute; reflexivity].
  - exists (str "F"), (str "2024-02-29"). split; [discriminate|].
    split; [reflexivity|vm_compute; reflexivity].
  - exists (str "A"), (str "2024-02-29"). split; [discriminate|].
    split; [reflexivity|vm_compute; reflexivity].
  - exists (str "C"), (str "2024-02-29"). split; [discriminate|].
    split; [reflexivity|vm_compute; reflexivity].
  - exists (str "D"), (str "2024-02-29"). split; [discriminate|].
    split; [reflexivity|vm_compute; reflexivity].
  - exists (str "H"), (str "2024-02-29"). split; [discriminate|].
    split; [reflexivity|vm_compute; reflexivity].
  - exists (str "B"), (str "2024-02-29"). split; [discriminate|].
    split; [reflexivity|vm_compute; reflexivity].
Qed.

Lemma dailyMessage_reaches_all_witness :
  exists name date,
    name <> [] /\ isDateText date = true /\
    dailyMessage name date = Some (str "Declutter one thing; make room for growth.").
Proof.
  apply dailyMessage_reaches_all. unfold DAILY_AFFIRM. cbn [In]. tauto.
Defined.

Lemma fnvStep_range (h c : Z) : 0 <= fnvStep h c < 2 ^ 32.
Proof. unfold fnvStep. apply Z.mod_pos_bound. lia. Qed.

Lemma lxor_u32 (u c : Z) :
  0 <= u < 2 ^ 32 -> 0 <= c < 65536 -> 0 <= Z.lxor u c < 2 ^ 32.
Proof.
  intros Hu Hc. pose proof (toUint32_lxor u c) as H. unfold toUint32 in H.
  rewrite (Z.mod_small u), (Z.mod_small c) in H by lia.
  rewrite <- H. apply Z.mod_pos_bound. lia.
Qed.

Lemma lxor_cancel_r (a b c : Z) : Z.lxor a c = Z.lxor b c -> a = b.
Proof.
  intros H. apply (f_equal (fun z => Z.lxor z c)) in H.
  rewrite !Z.lxor_assoc, Z.lxor_nilpotent, !Z.lxor_0_r in H. exact H.
Qed.

Lemma lxor_cancel_l (a b c : Z) : Z.lxor c a = Z.lxor c b -> a = b.
Proof. rewrite !(Z.lxor_comm c). apply lxor_cancel_r. Qed.

Lemma mul_prime_injective (x y : Z) :
  0 <= x < 2 ^ 32 -> 0 <= y < 2 ^ 32 ->
  (x * 16777619) mod 2 ^ 32 = (y * 16777619) mod 2 ^ 32 -> x = y.
Proof.
  intros Hx Hy H.
  assert (Hinv : forall z, 0 <= z < 2 ^ 32 ->
                           ((z * 16777619) mod 2 ^ 32 * 899433627) mod 2 ^ 32 = z).
  { intros z Hz. rewrite Z.mul_mod_idemp_l by lia.
    replace (z * 16777619 * 899433627) with (z + (z * 3513497) * 2 ^ 32) by lia.
    rewrite Z.mod_add by lia. apply Z.mod_small. exact Hz. }
  rewrite <- (Hinv x Hx), <- (Hinv y Hy), H. reflexivity.
Qed.

Lemma fnvStep_injective_state (u1 u2 c : Z) :
  0 <= u1 < 2 ^ 32 -> 0 <= u2 < 2 ^ 32 -> 0 <= c < 65536 ->
  fnvStep u1 c = fnvStep u2 c -> u1 = u2.
Proof.
  intros H1 H2 Hc H. unfold fnvStep in H.
  apply mul_prime_injective in H; try (apply lxor_u32; assumption).
  apply lxor_cancel_r in H. exact H.
Qed.

Lemma fnvStep_injective_unit (u c1 c2 : Z) :
  0 <= u < 2 ^ 32 -> 0 <= c1 < 65536 -> 0 <= c2 < 65536 ->
  fnvStep u c1 = fnvStep u c2 -> c1 = c2.
Proof.
  intros Hu H1 H2 H. unfold fnvStep in H.
  apply mul_prime_injective in H; try (apply lxor_u32; assumption).
  apply lxor_cancel_l in H. exact H.
Qed.

Lemma fnv_fold_range (s : JSString) (u : Z) :
  0 <= u < 2 ^ 32 -> 0 <= fold_left fnvStep s u < 2 ^ 32.
Proof.
  revert u. induction s as [|c s IH]; intros u Hu; cbn [fold_left]; [exact Hu|].
  apply IH, fnvStep_range.
Qed.

Lemma fnv_fold_injective (t : JSString) (u1 u2 : Z) :
  CodeUnits t -> 0 <= u1 < 2 ^ 32 -> 0 <= u2 < 2 ^ 32 ->
  fold_left fnvStep t u1 = fold_left fnvStep t u2 -> u1 = u2.
Proof.
  intros Ht. revert u1 u2. induction Ht as [|c t Hc _ IH]; intros u1 u2 H1 H2 H.
  - exact H.
  - cbn [fold_left] in H. apply IH in H; try apply fnvStep_range.
    apply (fnvStep_injective_state u1 u2 c); assumption.
Qed.

(** X18. The seed tells apart any two texts that differ in one code unit:
    if [before ++ c1 :: after] and [before ++ c2 :: after] have the same
    seed then [c1 = c2]. Each turn of the loop is a bijection of the 32-bit
    state, 16777619 being odd. *)
Theorem seedFrom_one_unit_apart (before after : JSString) (c1 c2 : Z) :
  CodeUnits before -> CodeUnits after ->
  0 <= c1 < 65536 -> 0 <= c2 < 65536 ->
  (seedFrom (before ++ c1 :: after) == seedFrom (before ++ c2 :: after))%Q ->
  c1 = c2.
Proof.
  intros Hb Ha H1 H2 Hq.
  assert (Hu : toUint32 (hash32 (before ++ c1 :: after))
               = toUint32 (hash32 (before ++ c2 :: after))).
  { unfold seedFrom, Qeq, Qdiv, Qmult, Qinv, inject_Z in Hq.
    simpl Qnum in Hq. simpl Qden in Hq. lia. }
  assert (Hw : forall c, 0 <= c < 65536 -> CodeUnits (before ++ c :: after)).
  { intros c Hc. apply Forall_app. split; [exact Hb|]. constructor; assumption. }
  unfold hash32 in Hu.
  rewrite !hash32_fnv1a32_from in Hu by (apply Hw; assumption).
  change (fun h c : Z => (Z.lxor h c * 16777619) mod 2 ^ 32) with fnvStep in Hu.
  rewrite !fold_left_app in Hu. cbn [fold_left] in Hu.
  assert (H0 : 0 <= toUint32 2166136261 < 2 ^ 32) by apply toUint32_range.
  apply (fnv_fold_injective after) in Hu;
    try assumption; try apply fnvStep_range.
  apply fnvStep_injective_unit in Hu; try assumption.
  apply fnv_fold_range. exact H0.
Qed.

Lemma seedFrom_one_unit_apart_witness :
  ~ Qeq (seedFrom (str "Asha2024-02-2" ++ [56]))
        (seedFrom (str "Asha2024-02-2" ++ [57])).
Proof.
  intros H.
  apply (seedFrom_one_unit_apart (str "Asha2024-02-2") [] 56 57) in H; try lia.
  - unfold CodeUnits, str. simpl. repeat (apply Forall_cons; [lia|]). apply Forall_nil.
  - apply Forall_nil.
Defined.

Lemma lxor_near (v e : Z) : 0 <= v -> 0 <= e -> v - e <= Z.lxor v e <= v + e.
Proof.
  intros Hv He.
  pose proof (Z.add_lxor_2land v e) as H1.
  pose proof (proj2 (Z.land_nonneg v e) (or_introl Hv)) as L1.
  assert (Hx : 0 <= Z.lxor v e) by (apply Z.lxor_nonneg; tauto).
  pose proof (Z.add_lxor_2land (Z.lxor v e) e) as H2.
  pose proof (proj2 (Z.land_nonneg (Z.lxor v e) e) (or_introl Hx)) as L2.
  rewrite Z.lxor_assoc, Z.lxor_nilpotent, Z.lxor_0_r in H2. lia.
Qed.

Lemma digit_cases (c : Z) :
  48 <= c <= 57 ->
  c = 48 \/ c = 49 \/ c = 50 \/ c = 51 \/ c = 52 \/
  c = 53 \/ c = 54 \/ c = 55 \/ c = 56 \/ c = 57.
Proof. lia. Qed.

Lemma lxor_digits (c1 c2 : Z) :
  48 <= c1 <= 57 -> 48 <= c2 <= 57 -> 0 <= Z.lxor c2 c1 <= 15.
Proof.
  intros H1 H2.
  destruct (digit_cases c1 H1) as [E|[E|[E|[E|[E|[E|[E|[E|[E|E]]]]]]]]];
    destruct (digit_cases c2 H2) as [F|[F|[F|[F|[F|[F|[F|[F|[F|F]]]]]]]]];
    rewrite E, F; vm_compute; split; discriminate.
Qed.

Lemma index_near (x1 x2 : Z) :
  x2 - 15 <= x1 <= x2 + 15 ->
  let i1 := ((x1 * 16777619) mod 4294967296 * 7) / 4294967296 in
  let i2 := ((x2 * 16777619) mod 4294967296 * 7) / 4294967296 in
  (i1 - i2) mod 7 = 0 \/ (i1 - i2) mod 7 = 1 \/ (i1 - i2) mod 7 = 6.
Proof.
  intros Hn i1 i2. subst i1 i2.
  pose proof (Z.div_mod (x1 * 16777619) 4294967296 ltac:(lia)) as D1.
  pose proof (Z.mod_pos_bound (x1 * 16777619) 4294967296 ltac:(lia)) as B1.
  pose proof (Z.div_mod (x2 * 16777619) 4294967296 ltac:(lia)) as D2.
  pose proof (Z.mod_pos_bound (x2 * 16777619) 4294967296 ltac:(lia)) as B2.
  generalize dependent ((x1 * 16777619) mod 4294967296). intros u1 D1 B1.
  generalize dependent ((x2 * 16777619) mod 4294967296). intros u2 D2 B2.
  generalize dependent ((x1 * 16777619) / 4294967296). intros q1 D1.
  generalize dependent ((x2 * 16777619) / 4294967296). intros q2 D2.
  pose proof (Z.div_mod (u1 * 7) 4294967296 ltac:(lia)) as E1.
  pose proof (Z.mod_pos_bound (u1 * 7) 4294967296 ltac:(lia)) as C1.
  pose proof (Z.div_mod (u2 * 7) 4294967296 ltac:(lia)) as E2.
  pose proof (Z.mod_pos_bound (u2 * 7) 4294967296 ltac:(lia)) as C2.
  generalize dependent ((u1 * 7) mod 4294967296). intros r1 E1 C1.
  generalize dependent ((u2 * 7) mod 4294967296). intros r2 E2 C2.
  generalize dependent ((u1 * 7) / 4294967296). intros i1 E1.
  generalize dependent ((u2 * 7) / 4294967296). intros i2 E2.
  assert (Hk : i1 - i2 = 7 * (q2 - q1) + -1 \/ i1 - i2 = 7 * (q2 - q1) + 0
               \/ i1 - i2 = 7 * (q2 - q1) + 1) by lia.
  destruct Hk as [Hk|[Hk|Hk]]; rewrite Hk, Z.add_comm, Z.mul_comm, Z.mod_add by lia.
  - right. right. reflexivity.
  - left. reflexivity.
  - right. left. reflexivity.
Qed.

(** X19. Changing only the last digit of the date text moves the daily
    message by at most one place in the list, end to start included: the
    two indices are equal or differ by 1 modulo 7. The last turn of the
    hash loop spreads a change of the low four bits over less than one
    seventh of the 32-bit range. *)
Theorem dailyMessage_last_digit (name before : JSString) (c1 c2 : Z) :
  CodeUnits (name ++ before) ->
  48 <= c1 <= 57 -> 48 <= c2 <= 57 ->
  let i1 := dailyIndex name (before ++ [c1]) in
  let i2 := dailyIndex name (before ++ [c2]) in
  (i1 - i2) mod 7 = 0 \/ (i1 - i2) mod 7 = 1 \/ (i1 - i2) mod 7 = 6.
Proof.
  intros Hs H1 H2 i1 i2. subst i1 i2. unfold dailyIndex. cbv zeta.
  rewrite !seedFrom_floor.
  change (Z.of_nat (List.length DAILY_AFFIRM)) with 7.
  assert (Hw : forall c, 48 <= c <= 57 -> CodeUnits ((name ++ before) ++ [c])).
  { intros c Hc. apply Forall_app. split; [exact Hs|].
    constructor; [lia|constructor]. }
  rewrite !app_assoc. unfold hash32.
  rewrite !hash32_fnv1a32_from by (apply Hw; assumption).
  change (fun h c : Z => (Z.lxor h c * 16777619) mod 2 ^ 32) with fnvStep.
  rewrite (fold_left_app fnvStep (name ++ before) [c1]),
    (fold_left_app fnvStep (name ++ before) [c2]).
  cbn [fold_left].
  pose proof (fnv_fold_range (name ++ before) (toUint32 2166136261)
                (toUint32_range _)) as HU.
  generalize dependent (fold_left fnvStep (name ++ before) (toUint32 2166136261)).
  intros U HU. unfold fnvStep.
  assert (Hx2 : 0 <= Z.lxor U c2 < 2 ^ 32) by (apply lxor_u32; lia).
  assert (Hx1 : Z.lxor U c1 = Z.lxor (Z.lxor U c2) (Z.lxor c2 c1)).
  { rewrite Z.lxor_assoc, <- (Z.lxor_assoc c2), Z.lxor_nilpotent, Z.lxor_0_l.
    reflexivity. }
  pose proof (lxor_digits c1 c2 H1 H2) as He.
  pose proof (lxor_near (Z.lxor U c2) (Z.lxor c2 c1) ltac:(lia) ltac:(lia)) as Hn.
  rewrite <- Hx1 in Hn.
  change (2 ^ 32) with 4294967296.
  apply (index_near (Z.lxor U c1) (Z.lxor U c2)). lia.
Qed.

Lemma dailyMessage_last_digit_witness :
  let i1 := dailyIndex (str "Asha") (str "2024-02-2" ++ [56]) in
  let i2 := dailyIndex (str "Asha") (str "2024-02-2" ++ [57]) in
  (i1 - i2) mod 7 = 0 \/ (i1 - i2) mod 7 = 1 \/ (i1 - i2) mod 7 = 6.
Proof.
  apply (dailyMessage_last_digit (str "Asha") (str "2024-02-2") 56 57); try lia.
  unfold CodeUnits, str. simpl. repeat (apply Forall_cons; [lia|]). apply Forall_nil.
Defined.

(** ** From the form to the lucky number *)

(** X20. For an input that passes the form's checks the profile shown has
    a lucky number between 1 and 9, the table entry of its life path,
    unless the date is 0000-00-00: that text passes too, and its profile is
    a Capricorn with life path 0 and no lucky number. *)
Theorem handleGenerate_lucky (input : BirthInput.t) (st : AppState.t) :
  birthSchemaIssues input = [] ->
  exists p,
    handleGenerate input st = Some (AppState.mk (Some p) [], None) /\
    (BirthInput.date input <> str "0000-00-00" ->
     In (AstroProfile.lifePath p) LIFE_PATHS /\
     exists v, AstroProfile.luckyNumber p = Some v /\ 1 <= v <= 9 /\
               nth_error luckyTable (Z.to_nat ((AstroProfile.lifePath p - 1) mod 9))
               = Some v) /\
    (BirthInput.date input = str "0000-00-00" ->
     AstroProfile.lifePath p = 0 /\ AstroProfile.luckyNumber p = None /\
     AstroProfile.sunSign p = str "Capricorn").
Proof.
  intros Hok.
  assert (Hd : isDateText (BirthInput.date input) = true).
  { unfold birthSchemaIssues in Hok.
    destruct (isDateText (BirthInput.date input)); [reflexivity|].
    destruct (min1 (BirthInput.name input)); discriminate Hok. }
  destruct (profileFromBirth_dateText input Hd) as (p & Hp & Hl).
  exists p. split; [unfold handleGenerate; rewrite Hok, Hp; reflexivity|].
  assert (Hn : AstroProfile.luckyNumber p = luckyNumber (AstroProfile.lifePath p)).
  { revert Hp. unfold profileFromBirth.
    destruct (getSunSign (BirthInput.date input)); [|discriminate].
    destruct (chineseZodiacFromYear (BirthInput.date input)); [|discriminate].
    intros E. injection E as <-. reflexivity. }
  split.
  - intros Hz.
    assert (Hin : In (AstroProfile.lifePath p) LIFE_PATHS).
    { rewrite Hl. apply lifePath_range.
      destruct (dateText_digitSum _ Hd) as [Hb H0].
      destruct (Z.eq_dec (digitSum (BirthInput.date input)) 0) as [E|N]; [|lia].
      elim Hz. apply H0, E. }
    split; [exact Hin|].
    assert (H1 : 1 <= AstroProfile.lifePath p)
      by (unfold LIFE_PATHS in Hin; cbn [In] in Hin; lia).
    destruct (luckyNumber_from_1 _ H1) as (v & Hv & Hr). exists v. rewrite Hn.
    split; [exact Hv|]. split; [exact Hr|].
    rewrite <- luckyNumber_mod by exact H1. exact Hv.
  - intros Hz. split; [rewrite Hl, Hz; reflexivity|].
    split; [rewrite Hn, Hl, Hz; reflexivity|].
    unfold profileFromBirth in Hp. rewrite Hz in Hp.
    change (getSunSign (str "0000-00-00"))
      with (Some (SunSign.mk (str "Capricorn") Earth Cardinal)) in Hp.
    change (chineseZodiacFromYear (str "0000-00-00")) with (Some (str "Monkey")) in Hp.
    injection Hp as <-. reflexivity.
Qed.

Lemma handleGenerate_lucky_witness :
  exists p,
    handleGenerate (BirthInput.mk (str "Asha") (str "0000-00-00") (str "06:30")
                                  (str "Pune") (str "+05:30"))
                   (AppState.mk None [])
    = Some (AppState.mk (Some p) [], None) /\
    AstroProfile.luckyNumber p = None.
Proof.
  destruct (handleGenerate_lucky
              (BirthInput.mk (str "Asha") (str "0000-00-00") (str "06:30")
                             (str "Pune") (str "+05:30"))
              (AppState.mk None [])) as (p & Hh & _ & Hz).
  - reflexivity.
  - exists p. split; [exact Hh|]. apply Hz. reflexivity.
Defined.
